(** * passwordRouter: sign-up, multi-factor sign-in and password rotation

    Shallow embedding of
    [apps/platform/trpc/routers/authRouter/passwordRouter.ts].

    The three mutations are written as programs over the calls they await
    (store queries and updates, hashing, one-time-code verification, session
    creation).  A program is run against a [world] holding the account table,
    the session table, the cookies set on the response, the console and the
    clock.  Two semantics are given: [run] executes one request to its end,
    [interleave] lets two requests take turns at their await points.

    Queries, updates, verifications and the session issuer always answer;
    hashing, the username validator, the insert and [tx.rollback()] may
    raise. *)

From Stdlib Require Import String List ZArith NArith Bool Lia DecimalString.
Import ListNotations.
Local Open Scope string_scope.
Local Open Scope Z_scope.

(** ** JavaScript values *)

(** An optional string: [None] is [undefined] or [null]. *)
Definition jsstring := option string.

(** Truthiness of a string-or-absent value: absent and the empty string are
    falsy. *)
Definition truthy (v : jsstring) : bool :=
  match v with
  | Some s => negb (String.eqb s "")
  | None => false
  end.

(** The string held by a value already known to be truthy. *)
Definition str (v : jsstring) : string :=
  match v with
  | Some s => s
  | None => ""
  end.

Arguments truthy : simpl never.
Arguments str : simpl never.

(** [a || b] on strings. *)
Definition js_or (a : jsstring) (b : string) : string :=
  if truthy a then str a else b.

(** ** Errors *)

Inductive TRPCCode : Type :=
| FORBIDDEN
| BAD_REQUEST
| NOT_FOUND
| METHOD_NOT_SUPPORTED
| UNAUTHORIZED.

Inductive error : Type :=
| TRPCError (code : TRPCCode) (message : string)
| H3Error (statusCode : Z) (message : string)
| LibError (message : string).

(** The error kinds of the specification, as the values the router throws. *)
Definition InsufficientFactors : error :=
  TRPCError BAD_REQUEST
    "You need to provide 2 of the following: Password, 2FA Code, Recovery Code".
Definition AccountNotFound : error := TRPCError NOT_FOUND "User not found".
Definition PasswordSignInDisabled : error :=
  TRPCError METHOD_NOT_SUPPORTED "Password sign-in is not enabled".
Definition InvalidCredentials : error :=
  H3Error 400 "Incorrect username or password".
Definition OtpSignInDisabled : error :=
  TRPCError METHOD_NOT_SUPPORTED "2FA sign-in is not enabled".
Definition InvalidOtp : error := TRPCError UNAUTHORIZED "Invalid 2FA code".
Definition RecoverySignInDisabled : error :=
  TRPCError METHOD_NOT_SUPPORTED "Recovery code sign-in is not enabled".
Definition InvalidRecoveryCode : error :=
  TRPCError UNAUTHORIZED "Invalid recovery code".
Definition AuthenticationFailed : error :=
  TRPCError UNAUTHORIZED "Something went wrong, please contact support".
Definition IncorrectOldPassword : error :=
  TRPCError UNAUTHORIZED "Incorrect old password".
Definition TwoFactorNotEnabled : error :=
  TRPCError METHOD_NOT_SUPPORTED
    "2FA is not enabled on this account, contact support".
Definition UsernameUnavailable (reason : jsstring) : error :=
  TRPCError FORBIDDEN (js_or reason "Username is not available").
Definition DuplicateEntry : error := LibError "ER_DUP_ENTRY".

(** ** Data model *)

(** A row of the [accounts] table (the columns the router touches). *)
Record Account : Type := mkAccount {
  id : Z;
  publicId : string;
  username : string;
  passwordHash : jsstring;
  twoFactorSecret : jsstring;
  recoveryCode : jsstring;
  lastLoginAt : option Z
}.

(** The [set] part of [db.update(accounts).set(...)]. *)
Inductive AccountPatch : Type :=
| SetRecoveryCode (v : jsstring)
| SetLastLoginAt (t : Z)
| SetPasswordHash (h : string).

Definition patch (s : AccountPatch) (a : Account) : Account :=
  match s with
  | SetRecoveryCode v =>
      mkAccount (id a) (publicId a) (username a) (passwordHash a)
        (twoFactorSecret a) v (lastLoginAt a)
  | SetLastLoginAt t =>
      mkAccount (id a) (publicId a) (username a) (passwordHash a)
        (twoFactorSecret a) (recoveryCode a) (Some t)
  | SetPasswordHash h =>
      mkAccount (id a) (publicId a) (username a) (Some h)
        (twoFactorSecret a) (recoveryCode a) (lastLoginAt a)
  end.

Record Session : Type := mkSession {
  sessionId : N;
  userId : Z;
  sessionUsername : string;
  sessionPublicId : string
}.

Record Cookie : Type := mkCookie {
  name : string;
  value : N;
  attributes : string
}.

(** The calls a request makes, in the order they are recorded in [calls]. *)
Inductive call : Type :=
| CQuery
| CUpdate
| CInsert
| CValidateUsername
| CHash
| CVerify
| CTotp
| CTypeId
| CSessionCreate
| CSessionInvalidate
| CSetCookie
| CConsole
| CRollback
| CDate.

Record world : Type := mkWorld {
  db : list Account;
  txSnapshot : option (list Account);
  nextInsertId : Z;
  sessions : list Session;
  nextSessionId : N;
  cookies : list Cookie;
  console : list error;
  clock : Z;
  entropy : N;
  calls : list call
}.

Module SignUpInput.
Record t : Type := mk { username : string; password : string }.
End SignUpInput.

(** The input of [signInWithPassword].  The handler tests each of the three
    factors for truthiness, so each is a string or absent here. *)
Module SignInInput.
Record t : Type := mk {
  username : string;
  password : jsstring;
  twoFactorCode : jsstring;
  recoveryCode : jsstring
}.
End SignInInput.

Module UpdatePasswordInput.
Record t : Type := mk {
  oldPassword : string;
  newPassword : string;
  otp : string;
  invalidateAllSessions : bool
}.
End UpdatePasswordInput.

(** [{ success: true }] *)
Inductive Success : Type := success.

(** ** Programs *)

(** The awaited calls, indexed by the type of what they return. *)
Inductive action : Type -> Type :=
| FindFirstByUsername (u : string) : action (option Account)
| FindFirstById (i : Z) : action (option Account)
| Update (s : AccountPatch) (i : Z) : action unit
| Insert (u p h : string) : action Z
| ValidateUsername (u : string) : action (bool * jsstring)
| Argon2idHash (s : string) : action string
| Argon2idVerify (h s : string) : action bool
| TOTPVerify (code : string) (secret : list Byte.byte) : action bool
| TypeIdGenerator (prefix : string) : action string
| CreateLuciaSessionCookie (accountId : Z) (u p : string) : action Cookie
| InvalidateUserSessions (i : Z) : action unit
| SetCookie (c : Cookie) : action unit
| ConsoleError (e : error) : action unit
| TxRollback : action unit
| NewDate : action Z.

Inductive prog (A : Type) : Type :=
| Ret (a : A)
| Throw (e : error)
| Act (X : Type) (op : action X) (k : X -> prog A)
| TryCatch (X : Type) (body : prog X) (handler : error -> prog X)
    (k : X -> prog A)
| Transaction (X : Type) (body : prog X) (k : X -> prog A).

Arguments Ret {A} a.
Arguments Throw {A} e.
Arguments Act {A X} op k.
Arguments TryCatch {A X} body handler k.
Arguments Transaction {A X} body k.

Fixpoint bind {A B : Type} (p : prog A) (f : A -> prog B) : prog B :=
  match p with
  | Ret a => f a
  | Throw e => Throw e
  | Act op k => Act op (fun x => bind (k x) f)
  | TryCatch body h k => TryCatch body h (fun x => bind (k x) f)
  | Transaction body k => Transaction body (fun x => bind (k x) f)
  end.

Definition await {X : Type} (op : action X) : prog X := Act op Ret.
Definition try_catch {X : Type} (body : prog X) (h : error -> prog X)
  : prog X := TryCatch body h Ret.
Definition transaction {X : Type} (body : prog X) : prog X :=
  Transaction body Ret.

Declare Scope prog_scope.
Delimit Scope prog_scope with prog.
Notation "x <- c ;; k" := (bind c (fun x => k))
  (at level 100, c at next level, right associativity) : prog_scope.
Notation "c ;; k" := (bind c (fun _ => k))
  (at level 100, right associativity) : prog_scope.
Local Open Scope prog_scope.

(** ** Collaborators *)

(** The libraries and helpers the router imports.  Their code is not part of
    the router; the semantics below is parametrised by them, so every theorem
    holds for any hasher, any one-time-code verifier and any validator. *)
Class Collaborators : Type := {
  (** [new Argon2id().hash(secret)], salted from the entropy source; hashing
      may raise. *)
  argon2id_hash : N -> string -> error + string;
  (** what [new Argon2id().verify(hash, secret)] answers; that the call can
      raise instead (on a stored hash that is not one) is part of [execF] *)
  argon2id_verify : string -> string -> bool;
  (** what [decodeHex] of [oslo/encoding] returns; that it can raise instead
      (on a stored secret that is not hexadecimal) is part of [execF], at the
      one-time-code call it feeds *)
  decodeHex : string -> list Byte.byte;
  (** [new TOTPController().verify(code, secret)] at a given time *)
  totp_verify : Z -> string -> list Byte.byte -> bool;
  (** [typeIdGenerator(prefix)], drawn from the entropy source *)
  typeIdGenerator : N -> string -> string;
  (** [validateUsername(tx, username)] of [signupRouter]:
      [{ available, error }], or an exception *)
  validateUsername : list Account -> string -> error + (bool * jsstring);
  (** the cookie [createLuciaSessionCookie] builds for a session id *)
  createSessionCookie : N -> Cookie;
  (** what [tx.rollback()] does after undoing the writes of the transaction:
      [inr tt] when it returns, [inl e] when it raises [e].  The ORM's
      [rollback()] is the second kind: it raises its
      [TransactionRollbackError]. *)
  txRollback : error + unit
}.

(** ** Semantics *)

Definition log (c : call) (w : world) : world :=
  mkWorld (db w) (txSnapshot w) (nextInsertId w) (sessions w)
    (nextSessionId w) (cookies w) (console w) (clock w) (entropy w)
    (calls w ++ [c]).

Definition set_db (d : list Account) (w : world) : world :=
  mkWorld d (txSnapshot w) (nextInsertId w) (sessions w)
    (nextSessionId w) (cookies w) (console w) (clock w) (entropy w) (calls w).

Definition set_txSnapshot (t : option (list Account)) (w : world) : world :=
  mkWorld (db w) t (nextInsertId w) (sessions w)
    (nextSessionId w) (cookies w) (console w) (clock w) (entropy w) (calls w).

Definition set_nextInsertId (n : Z) (w : world) : world :=
  mkWorld (db w) (txSnapshot w) n (sessions w)
    (nextSessionId w) (cookies w) (console w) (clock w) (entropy w) (calls w).

Definition set_sessions (l : list Session) (w : world) : world :=
  mkWorld (db w) (txSnapshot w) (nextInsertId w) l
    (nextSessionId w) (cookies w) (console w) (clock w) (entropy w) (calls w).

Definition set_nextSessionId (n : N) (w : world) : world :=
  mkWorld (db w) (txSnapshot w) (nextInsertId w) (sessions w)
    n (cookies w) (console w) (clock w) (entropy w) (calls w).

Definition set_cookies (l : list Cookie) (w : world) : world :=
  mkWorld (db w) (txSnapshot w) (nextInsertId w) (sessions w)
    (nextSessionId w) l (console w) (clock w) (entropy w) (calls w).

Definition set_console (l : list error) (w : world) : world :=
  mkWorld (db w) (txSnapshot w) (nextInsertId w) (sessions w)
    (nextSessionId w) (cookies w) l (clock w) (entropy w) (calls w).

Definition set_entropy (n : N) (w : world) : world :=
  mkWorld (db w) (txSnapshot w) (nextInsertId w) (sessions w)
    (nextSessionId w) (cookies w) (console w) (clock w) n (calls w).

(** [where: eq(accounts.username, u)] *)
Definition byUsername (u : string) (a : Account) : bool :=
  String.eqb (username a) u.

(** [where: eq(accounts.id, i)] *)
Definition byId (i : Z) (a : Account) : bool := id a =? i.

(** [db.update(accounts).set(s).where(eq(accounts.id, i))] *)
Definition update (s : AccountPatch) (i : Z) (d : list Account)
  : list Account :=
  map (fun a => if byId i a then patch s a else a) d.

(** Modelled from the spec: [lucia.invalidateUserSessions(i)] is the session
    issuer's [invalidateAllForAccount]: it removes every session of the
    account. *)
Definition invalidate (i : Z) (l : list Session) : list Session :=
  filter (fun s => negb (userId s =? i)) l.

Arguments update : simpl never.
Arguments invalidate : simpl never.

Section Semantics.
Context {E : Collaborators}.

(** Modelled from the spec: [createLuciaSessionCookie] ([utils/session]) is
    the session issuer's [issue(accountId, username, publicId)]: it adds a
    session under a fresh id for the identity and returns the cookie that
    carries it. *)
Definition issue (accountId : Z) (u p : string) (w : world)
  : Cookie * world :=
  let s := mkSession (nextSessionId w) accountId u p in
  (createSessionCookie (nextSessionId w),
   set_nextSessionId (nextSessionId w + 1)
     (set_sessions (sessions w ++ [s]) w)).

(** Modelled from the spec: [tx.insert(accounts).values(...)] adds one row
    under the next generated id; the uniqueness constraint on [username]
    makes the store refuse a second row with the same username. *)
Definition insert (u p h : string) (w : world) : (error + Z) * world :=
  if existsb (byUsername u) (db w)
  then (inl DuplicateEntry, w)
  else
    let row := mkAccount (nextInsertId w) p u (Some h) None None None in
    (inr (nextInsertId w),
     set_nextInsertId (nextInsertId w + 1) (set_db (db w ++ [row]) w)).

(** What a call answers and what it does to the world, when it answers.
    Only the calls the handlers guard against or that the store refuses by
    its constraint fail here; any call rejecting is [execF] below. *)
Definition exec {X : Type} (op : action X) (w : world)
  : (error + X) * world :=
  match op in action T return (error + T) * world with
  | FindFirstByUsername u =>
      (inr (find (byUsername u) (db w)), log CQuery w)
  | FindFirstById i =>
      (inr (find (byId i) (db w)), log CQuery w)
  | Update s i =>
      (inr tt, log CUpdate (set_db (update s i (db w)) w))
  | Insert u p h =>
      let (r, w') := insert u p h w in (r, log CInsert w')
  | ValidateUsername u =>
      match validateUsername (db w) u with
      | inl e => (inl e, log CValidateUsername w)
      | inr r => (inr r, log CValidateUsername w)
      end
  | Argon2idHash s =>
      match argon2id_hash (entropy w) s with
      | inl e => (inl e, log CHash w)
      | inr h => (inr h, log CHash (set_entropy (entropy w + 1) w))
      end
  | Argon2idVerify h s =>
      (inr (argon2id_verify h s), log CVerify w)
  | TOTPVerify code secret =>
      (inr (totp_verify (clock w) code secret), log CTotp w)
  | TypeIdGenerator prefix =>
      (inr (typeIdGenerator (entropy w) prefix),
       log CTypeId (set_entropy (entropy w + 1) w))
  | CreateLuciaSessionCookie a u p =>
      let (c, w') := issue a u p w in (inr c, log CSessionCreate w')
  | InvalidateUserSessions i =>
      (inr tt,
       log CSessionInvalidate (set_sessions (invalidate i (sessions w)) w))
  | SetCookie c =>
      (inr tt, log CSetCookie (set_cookies (cookies w ++ [c]) w))
  | ConsoleError e =>
      (inr tt, log CConsole (set_console (console w ++ [e]) w))
  | TxRollback =>
      let w' :=
        match txSnapshot w with
        | Some d => set_db d w
        | None => w
        end in
      match txRollback with
      | inl e => (inl e, log CRollback w')
      | inr u => (inr u, log CRollback w')
      end
  | NewDate => (inr (clock w), log CDate w)
  end.

(** Modelled from the spec: [db.transaction(callback)] is a unit of work; the
    writes of the callback are kept when it returns and undone when it
    throws. *)
Definition tx_begin (w : world) : world := set_txSnapshot (Some (db w)) w.
Definition tx_commit (w : world) : world := set_txSnapshot None w.
Definition tx_abort (w : world) : world :=
  set_txSnapshot None
    match txSnapshot w with
    | Some d => set_db d w
    | None => w
    end.

(** One request run to its end, every call answering as [exec] says. *)
Fixpoint run {A : Type} (p : prog A) (w : world) : (error + A) * world :=
  match p with
  | Ret a => (inr a, w)
  | Throw e => (inl e, w)
  | Act op k =>
      match exec op w with
      | (inr x, w') => run (k x) w'
      | (inl e, w') => (inl e, w')
      end
  | TryCatch body h k =>
      match run body w with
      | (inr x, w') => run (k x) w'
      | (inl e, w') =>
          match run (h e) w' with
          | (inr x, w'') => run (k x) w''
          | (inl e', w'') => (inl e', w'')
          end
      end
  | Transaction body k =>
      match run body (tx_begin w) with
      | (inr x, w') => run (k x) (tx_commit w')
      | (inl e, w') => (inl e, tx_abort w')
      end
  end.

Definition of_result {A : Type} (r : error + A) : prog A :=
  match r with
  | inl e => Throw e
  | inr a => Ret a
  end.

(** One turn of a request: it runs up to its next await point.  A
    transaction takes its turn as a whole. *)
Definition step {A : Type} (p : prog A) (w : world) : prog A * world :=
  match p with
  | Ret a => (Ret a, w)
  | Throw e => (Throw e, w)
  | Act op k =>
      match exec op w with
      | (inr x, w') => (k x, w')
      | (inl e, w') => (Throw e, w')
      end
  | TryCatch _ _ _ | Transaction _ _ =>
      let (r, w') := run p w in (of_result r, w')
  end.

(** Two requests in flight: the schedule says whose turn it is ([true] for
    the first); when it is exhausted the first request runs to its end, then
    the second. *)
Fixpoint interleave {A B : Type} (sched : list bool)
  (p : prog A) (q : prog B) (w : world)
  : (error + A) * (error + B) * world :=
  match sched with
  | [] =>
      let (r1, w1) := run p w in
      let (r2, w2) := run q w1 in
      (r1, r2, w2)
  | true :: sched' =>
      let (p', w') := step p w in interleave sched' p' q w'
  | false :: sched' =>
      let (q', w') := step q w in interleave sched' p q' w'
  end.

End Semantics.

Arguments issue {E} accountId u p w /.
Arguments insert u p h w /.

(** ** The router *)

(** [Number(x)] of a whole number [x]: the nearest double, ties to the even
    significand.  It is [x] itself when [|x| < 2^53]; whole numbers of
    magnitude [2^1024] and above, which become [Infinity], are out of the
    range of a generated id. *)
Definition Number (x : Z) : Z :=
  let a := Z.abs x in
  if a <? 2 ^ 53 then x
  else
    let e := Z.log2 a - 52 in
    let q := a / 2 ^ e in
    let r := a mod 2 ^ e in
    let half := 2 ^ (e - 1) in
    let q' := if (half <? r) || ((r =? half) && Z.odd q) then q + 1 else q in
    Z.sgn x * (q' * 2 ^ e).

Arguments Number : simpl never.

Section Router.
Context {E : Collaborators}.

(** [signUpWithPassword] *)
Definition signUpWithPassword (input : SignUpInput.t) : prog Success :=
  let username := SignUpInput.username input in
  let password := SignUpInput.password input in
  created <-
    transaction
      (try_catch
         (r <- await (ValidateUsername username) ;;
          let '(available, error) := r in
          if negb available
          then Throw (UsernameUnavailable error)
          else
            passwordHash <- await (Argon2idHash password) ;;
            publicId <- await (TypeIdGenerator "account") ;;
            insertId <- await (Insert username publicId passwordHash) ;;
            Ret (Number insertId, publicId))
         (fun err =>
            await TxRollback ;;
            await (ConsoleError err) ;;
            Throw err)) ;;
  let '(accountId, publicId) := created in
  cookie <- await (CreateLuciaSessionCookie accountId username publicId) ;;
  await (SetCookie cookie) ;;
  now <- await NewDate ;;
  await (Update (SetLastLoginAt now) accountId) ;;
  Ret success.

(** The guard at the head of [signInWithPassword]. *)
Definition twoFactorsSupplied (input : SignInInput.t) : bool :=
  let p := truthy (SignInInput.password input) in
  let o := truthy (SignInInput.twoFactorCode input) in
  let r := truthy (SignInInput.recoveryCode input) in
  negb (negb (p && o) && negb (p && r) && negb (o && r)).

(** verify password if provided *)
Definition verifyPassword (input : SignInInput.t) (userResponse : Account)
  : prog bool :=
  if truthy (SignInInput.password input) then
    if negb (truthy (passwordHash userResponse))
    then Throw PasswordSignInDisabled
    else
      validPassword <-
        await (Argon2idVerify (str (passwordHash userResponse))
                 (str (SignInInput.password input))) ;;
      if negb validPassword
      then Throw InvalidCredentials
      else Ret validPassword
  else Ret false.

(** verify otp if provided *)
Definition verifyOtp (input : SignInInput.t) (userResponse : Account)
  : prog bool :=
  if truthy (SignInInput.twoFactorCode input) then
    if negb (truthy (twoFactorSecret userResponse))
    then Throw OtpSignInDisabled
    else
      let secret := decodeHex (str (twoFactorSecret userResponse)) in
      otpValid <-
        await (TOTPVerify (str (SignInInput.twoFactorCode input)) secret) ;;
      if negb otpValid
      then Throw InvalidOtp
      else Ret otpValid
  else Ret false.

(** verify recovery code if provided *)
Definition verifyRecoveryCode (input : SignInInput.t)
  (userResponse : Account) : prog bool :=
  if truthy (SignInInput.recoveryCode input) then
    if negb (truthy (recoveryCode userResponse))
    then Throw RecoverySignInDisabled
    else
      isRecoveryCodeValid <-
        await (Argon2idVerify (str (recoveryCode userResponse))
                 (str (SignInInput.recoveryCode input))) ;;
      recoveryCodeValid <-
        (if isRecoveryCodeValid
         then
           (* Remove the used recovery code from the database *)
           await (Update (SetRecoveryCode None) (id userResponse)) ;;
           Ret isRecoveryCodeValid
         else Ret false) ;;
      if negb recoveryCodeValid
      then Throw InvalidRecoveryCode
      else Ret recoveryCodeValid
  else Ret false.

(** The last [if] of [signInWithPassword]. *)
Definition decide (input : SignInInput.t) (userResponse : Account)
  (validPassword otpValid recoveryCodeValid : bool) : prog Success :=
  if (validPassword && otpValid)
     || (validPassword && recoveryCodeValid)
     || (otpValid && recoveryCodeValid)
  then
    cookie <-
      await (CreateLuciaSessionCookie (id userResponse)
               (username userResponse) (publicId userResponse)) ;;
    await (SetCookie cookie) ;;
    now <- await NewDate ;;
    await (Update (SetLastLoginAt now) (id userResponse)) ;;
    Ret success
  else Throw AuthenticationFailed.

(** [signInWithPassword] from the first check on: the three checks in
    their order, then the decision. *)
Definition verifyFactors (input : SignInInput.t) (userResponse : Account)
  : prog Success :=
  validPassword <- verifyPassword input userResponse ;;
  otpValid <- verifyOtp input userResponse ;;
  recoveryCodeValid <- verifyRecoveryCode input userResponse ;;
  decide input userResponse validPassword otpValid recoveryCodeValid.

(** [signInWithPassword] *)
Definition signInWithPassword (input : SignInInput.t) : prog Success :=
  if negb (twoFactorsSupplied input)
  then Throw InsufficientFactors
  else
    userResponse <-
      await (FindFirstByUsername (SignInInput.username input)) ;;
    match userResponse with
    | None => Throw AccountNotFound
    | Some userResponse => verifyFactors input userResponse
    end.

(** [updateUserPassword]; [accountId] is [ctx.account.id]. *)
Definition updateUserPassword (accountId : Z)
  (input : UpdatePasswordInput.t) : prog Success :=
  accountData <- await (FindFirstById accountId) ;;
  match accountData with
  | None => Throw AccountNotFound
  | Some accountData =>
      if negb (truthy (passwordHash accountData))
      then Throw PasswordSignInDisabled
      else
        oldPasswordValid <-
          await (Argon2idVerify (str (passwordHash accountData))
                   (UpdatePasswordInput.oldPassword input)) ;;
        if negb oldPasswordValid
        then Throw IncorrectOldPassword
        else
          if negb (truthy (twoFactorSecret accountData))
          then Throw TwoFactorNotEnabled
          else
            let secret := decodeHex (str (twoFactorSecret accountData)) in
            otpValid <-
              await (TOTPVerify (UpdatePasswordInput.otp input) secret) ;;
            if negb otpValid
            then Throw InvalidOtp
            else
              passwordHash <-
                await (Argon2idHash (UpdatePasswordInput.newPassword input)) ;;
              await (Update (SetPasswordHash passwordHash) accountId) ;;
              (* Invalidate all sessions if requested *)
              (if UpdatePasswordInput.invalidateAllSessions input
               then await (InvalidateUserSessions accountId)
               else Ret tt) ;;
              cookie <-
                await (CreateLuciaSessionCookie accountId
                         (username accountData) (publicId accountData)) ;;
              await (SetCookie cookie) ;;
              Ret success
  end.

End Router.

(** ** Deterministic collaborators and a sample world *)

Module Fake.

Definition hash (salt : N) (s : string) : error + string :=
  inr ("$argon2id$" ++ s).
Definition verify (h s : string) : bool := String.eqb h ("$argon2id$" ++ s).
Definition totp (now : Z) (code : string) (secret : list Byte.byte) : bool :=
  String.eqb code "123456".
Definition typeId (n : N) (prefix : string) : string :=
  prefix ++ "_" ++ NilEmpty.string_of_uint (N.to_uint n).
Definition validate (d : list Account) (u : string)
  : error + (bool * jsstring) :=
  if existsb (byUsername u) d
  then inr (false, Some "Already taken")
  else inr (true, None).
Definition cookie (n : N) : Cookie := mkCookie "session" n "HttpOnly".

(** Every collaborator behaves. *)
Definition sound : Collaborators :=
  Build_Collaborators hash verify (fun _ => []) totp typeId validate cookie
    (inr tt).

(** The validator lets every username through. *)
Definition lenient : Collaborators :=
  Build_Collaborators hash verify (fun _ => []) totp typeId
    (fun _ _ => inr (true, None)) cookie (inr tt).

(** Hashing raises. *)
Definition outOfMemory : Collaborators :=
  Build_Collaborators (fun _ _ => inl (LibError "out of memory")) verify
    (fun _ => []) totp typeId validate cookie (inr tt).

Definition alice : Account :=
  mkAccount 1 "account_0" "alice" (Some "$argon2id$Str0ng!Passw0rd")
    (Some "00ff") (Some "$argon2id$RECOVERY-1") None.

(** [bob] has no password, no second factor secret and no recovery code. *)
Definition bob : Account :=
  mkAccount 2 "account_1" "bob" None None None None.

(** [carol] has a password only. *)
Definition carol : Account :=
  mkAccount 3 "account_2" "carol" (Some "$argon2id$correct horse") None
    None None.

Definition world0 : world :=
  mkWorld [alice; bob; carol] None 4
    [mkSession 0 1 "alice" "account_0"; mkSession 1 3 "carol" "account_2";
     mkSession 2 1 "alice" "account_0"]
    3 [] [] 1700000000 7 [].

Definition emptyWorld : world :=
  mkWorld [] None 1 [] 0 [] [] 1700000000 0 [].

End Fake.

(** ** Calls that reject *)

(** Every call of a handler (a query or a write of the store, a verification,
    the session issuer, the cookie helper) can raise or reject instead of
    answering.  Which calls do, and with what message, is given by an oracle
    that sees the call and the world at that point.  A call that rejects
    leaves the world as it is, apart from the record that it was made; the
    exception it raises is the library's, never one of the router's own
    errors. *)
Definition faults : Type :=
  forall X : Type, action X -> world -> option string.

(** Every call answers. *)
Definition noFaults : faults := fun _ _ _ => None.

(** The kind of a call, as [exec] records it. *)
Definition callOf {X : Type} (op : action X) : call :=
  match op with
  | FindFirstByUsername _ | FindFirstById _ => CQuery
  | Update _ _ => CUpdate
  | Insert _ _ _ => CInsert
  | ValidateUsername _ => CValidateUsername
  | Argon2idHash _ => CHash
  | Argon2idVerify _ _ => CVerify
  | TOTPVerify _ _ => CTotp
  | TypeIdGenerator _ => CTypeId
  | CreateLuciaSessionCookie _ _ _ => CSessionCreate
  | InvalidateUserSessions _ => CSessionInvalidate
  | SetCookie _ => CSetCookie
  | ConsoleError _ => CConsole
  | TxRollback => CRollback
  | NewDate => CDate
  end.


Section Faults.
Context {E : Collaborators}.

(** A call under an oracle: it rejects when the oracle says so, and answers
    as [exec] says otherwise.  The rejection of the one-time-code call
    stands for [decodeHex] raising as well: both happen at the same point of
    the handler, after the stored secret was found present. *)
Definition execF (f : faults) {X : Type} (op : action X) (w : world)
  : (error + X) * world :=
  match f X op w with
  | Some message => (inl (LibError message), log (callOf op) w)
  | None => exec op w
  end.

(** One request run to its end under an oracle. *)
Fixpoint runF (f : faults) {A : Type} (p : prog A) (w : world)
  : (error + A) * world :=
  match p with
  | Ret a => (inr a, w)
  | Throw e => (inl e, w)
  | Act op k =>
      match execF f op w with
      | (inr x, w') => runF f (k x) w'
      | (inl e, w') => (inl e, w')
      end
  | TryCatch body h k =>
      match runF f body w with
      | (inr x, w') => runF f (k x) w'
      | (inl e, w') =>
          match runF f (h e) w' with
          | (inr x, w'') => runF f (k x) w''
          | (inl e', w'') => (inl e', w'')
          end
      end
  | Transaction body k =>
      match runF f body (tx_begin w) with
      | (inr x, w') => runF f (k x) (tx_commit w')
      | (inl e, w') => (inl e, tx_abort w')
      end
  end.


End Faults.

(** Sample oracles. *)
Module Outage.

(** The session issuer is down: [createLuciaSessionCookie] rejects. *)
Definition sessionStore : faults :=
  fun _ op _ =>
    match op with
    | CreateLuciaSessionCookie _ _ _ => Some "session store unavailable"
    | _ => None
    end.

(** Verification raises on what is stored. *)
Definition verifier : faults :=
  fun _ op _ =>
    match op with
    | Argon2idVerify _ _ => Some "malformed hash"
    | _ => None
    end.

End Outage.

(** ** Vocabulary of the statements *)

(** Number of factors present in a request (not [undefined]). *)
Definition present (v : jsstring) : nat :=
  match v with
  | Some _ => 1
  | None => 0
  end.

Definition factorsPresent (input : SignInInput.t) : nat :=
  (present (SignInInput.password input)
   + present (SignInInput.twoFactorCode input)
   + present (SignInInput.recoveryCode input))%nat.

(** The six errors a factor check can throw. *)
Definition factorErrors : list error :=
  [PasswordSignInDisabled; InvalidCredentials; OtpSignInDisabled; InvalidOtp;
   RecoverySignInDisabled; InvalidRecoveryCode].

(** How many of the three verification outcomes are valid. *)
Definition validOutcomes (vp ov rv : bool) : nat :=
  (Nat.b2n vp + Nat.b2n ov + Nat.b2n rv)%nat.

(** ** Vocabulary for two requests in flight *)

(** The account [u] as a lookup by [name] sees it in table [d], with its
    recovery code still stored ([codeStored]) or already cleared
    ([codeCleared]). *)
Definition seenAs (name : string) (u : Account) (code : jsstring)
  (d : list Account) : Prop :=
  exists a : Account,
    find (byUsername name) d = Some a
    /\ id a = id u
    /\ passwordHash a = passwordHash u
    /\ twoFactorSecret a = twoFactorSecret u
    /\ recoveryCode a = code.

Definition codeStored (name : string) (u : Account) (w : world) : Prop :=
  seenAs name u (recoveryCode u) (db w).

Definition codeCleared (name : string) (u : Account) (w : world) : Prop :=
  seenAs name u None (db w).

(** The worlds two sign-ins for [u] move through: the clock reads [now] and
    the account is visible, with or without its recovery code. *)
Definition known (name : string) (u : Account) (now : Z) (w : world)
  : Prop :=
  clock w = now /\ (codeStored name u w \/ codeCleared name u w).

(** What a turn of either request may do to the world: the clock and the
    account stay, and a cleared code stays cleared. *)
Definition turn (name : string) (u : Account) (w w' : world) : Prop :=
  clock w' = clock w
  /\ (codeStored name u w' \/ codeCleared name u w')
  /\ (codeCleared name u w -> codeCleared name u w').

Section Safety.
Context {E : Collaborators}.
Context {A : Type}.
Variable I : world -> Prop.
Variable G : world -> world -> Prop.
Variable Q : error + A -> Prop.

(** [safe p]: started in any world satisfying [I], whatever the other
    request does in between, every call of [p] respects [G] and [p] ends
    in a result satisfying [Q]. *)
Inductive safe : prog A -> Prop :=
| safe_Ret (a : A) : Q (inr a) -> safe (Ret a)
| safe_Throw (e : error) : Q (inl e) -> safe (Throw e)
| safe_Act (X : Type) (op : action X) (k : X -> prog A) :
    (forall w, I w -> G w (snd (exec op w))) ->
    (forall w x w', I w -> exec op w = (inr x, w') -> safe (k x)) ->
    (forall w e w', I w -> exec op w = (inl e, w') -> Q (inl e)) ->
    safe (Act op k).

End Safety.

(** Where a request stands with respect to the recovery code. *)
Inductive standing : Type :=
| NotLookedUp
| SawCode
| SawNoCode.

(** A request of [input] at a given standing: not started, or bound to
    succeed, or bound to fail with [RecoverySignInDisabled]. *)
Definition at_standing {E : Collaborators} (input : SignInInput.t)
  (u : Account) (now : Z) (t : standing) (p : prog Success) : Prop :=
  let name := SignInInput.username input in
  match t with
  | NotLookedUp => p = signInWithPassword input
  | SawCode =>
      safe (known name u now) (turn name u) (fun r => r = inr success) p
  | SawNoCode =>
      safe (known name u now) (turn name u)
        (fun r => r = inl RecoverySignInDisabled) p
  end.

(** The two ways a sign-in that reuses a recovery code can end. *)
Definition succeededOrNoCode (r : error + Success) : Prop :=
  r = inr success \/ r = inl RecoverySignInDisabled.

(** Every factor the request supplies is enrolled on [u] and verifies, the
    one-time code at time [now]. *)
Definition passwordValid {E : Collaborators} (input : SignInInput.t)
  (u : Account) : Prop :=
  truthy (passwordHash u) = true
  /\ argon2id_verify (str (passwordHash u))
       (str (SignInInput.password input)) = true.

Definition otpValid {E : Collaborators} (input : SignInInput.t)
  (u : Account) (now : Z) : Prop :=
  truthy (twoFactorSecret u) = true
  /\ totp_verify now (str (SignInInput.twoFactorCode input))
       (decodeHex (str (twoFactorSecret u))) = true.

Definition recoveryCodeValid {E : Collaborators} (input : SignInInput.t)
  (u : Account) : Prop :=
  truthy (recoveryCode u) = true
  /\ argon2id_verify (str (recoveryCode u))
       (str (SignInInput.recoveryCode input)) = true.

(** ** Sample requests *)

Module Scenario.

Definition pw : jsstring := Some "Str0ng!Passw0rd".
Definition code : jsstring := Some "RECOVERY-1".

(** correct password, wrong one-time code, correct recovery code *)
Definition threeFactorsOneWrong : SignInInput.t :=
  SignInInput.mk "alice" pw (Some "000000") code.

(** correct password and correct recovery code *)
Definition passwordAndCode : SignInInput.t :=
  SignInInput.mk "alice" pw None code.

(** all three factors, all correct *)
Definition allThree : SignInInput.t :=
  SignInInput.mk "alice" pw (Some "123456") code.

(** a password and a recovery code for an account that has neither *)
Definition bobWithPassword : SignInInput.t :=
  SignInInput.mk "bob" (Some "hunter2hunter2") None (Some "RECOVERY-9").

(** a password and nothing else *)
Definition passwordOnly : SignInInput.t :=
  SignInInput.mk "alice" pw None None.

Definition rotateCarol : UpdatePasswordInput.t :=
  UpdatePasswordInput.mk "correct horse" "N3w!Passw0rd" "123456" false.

Definition rotateAliceWrongOtp : UpdatePasswordInput.t :=
  UpdatePasswordInput.mk "Str0ng!Passw0rd" "N3w!Passw0rd" "000000" true.

Definition rotateAlice : UpdatePasswordInput.t :=
  UpdatePasswordInput.mk "Str0ng!Passw0rd" "N3w!Passw0rd" "123456" true.

Definition signUpAlice : SignUpInput.t :=
  SignUpInput.mk "alice" "Str0ng!Passw0rd".

End Scenario.

(** ** Vocabulary for the store as a whole *)

(** The columns no handler of the router writes on an existing row except
    [passwordHash], which only the rotation writes. *)
Definition identity (a : Account) : Z * string * string :=
  (id a, publicId a, username a).

(** The columns a sign-in leaves alone on every row. *)
Definition credentials (a : Account)
  : Z * string * string * jsstring * jsstring :=
  (id a, publicId a, username a, passwordHash a, twoFactorSecret a).

(** The store as sign-up builds it: usernames and ids are not repeated, and
    every id is below the next one to be generated. *)
Definition wellFormed (w : world) : Prop :=
  NoDup (map username (db w))
  /\ NoDup (map id (db w))
  /\ Forall (fun a => id a < nextInsertId w) (db w).

(** The row a sign-up for [u] with hash [h] ends with. *)
Definition signedUp {E : Collaborators} (w : world) (u h : string)
  : Account :=
  mkAccount (nextInsertId w) (typeIdGenerator (entropy w + 1) "account") u
    (Some h) None None (Some (clock w)).

(** The columns a rotation leaves alone on every row. *)
Definition exceptPassword (a : Account)
  : Z * string * string * jsstring * jsstring * option Z :=
  (id a, publicId a, username a, twoFactorSecret a, recoveryCode a,
   lastLoginAt a).

(** The sign-in request with a password and a one-time code. *)
Definition passwordAndOtp (u p c : string) : SignInInput.t :=
  SignInInput.mk u (Some p) (Some c) None.

(** ** The avatar stack

    Shallow embedding of [apps/web-app/components/un/ui-avatar-plus.vue]: the
    props with their defaults, the two computed values of the script, and the
    template as a function from the props to what is rendered. *)

Module AvatarPlus.

Inductive Size : Type := tiny | xs | sm | md | lg | xl.

(** The fields of a conversation participant the template reads; their
    types are declared in [composables/types]. *)
Record ConvoParticipantEntry : Type := mkEntry {
  participantPublicId : string;
  avatarProfilePublicId : string;
  avatarTimestamp : option Z;
  name : string;
  type : string;
  color : string
}.

(** The props as the parent passes them: [size] and [limit] may be left
    out. *)
Record PropsIn : Type := mkPropsIn {
  primaryIn : option ConvoParticipantEntry;
  avatarsIn : list ConvoParticipantEntry;
  sizeIn : option Size;
  limitIn : option Z
}.

(** [limit] is a [number] in the component; here it ranges over the whole
    numbers, which is what a count of avatars is and what the default is. *)
Record Props : Type := mkProps {
  primary : option ConvoParticipantEntry;
  avatars : list ConvoParticipantEntry;
  size : Size;
  limit : Z
}.

(** [withDefaults(defineProps<Props>(), { size: 'md', limit: 1 })] *)
Definition withDefaults (p : PropsIn) : Props :=
  mkProps (primaryIn p) (avatarsIn p)
    (match sizeIn p with Some s => s | None => md end)
    (match limitIn p with Some l => l | None => 1 end).

(** [avatarArray] *)
Definition avatarArray (props : Props) : list ConvoParticipantEntry :=
  avatars props.

(** [primaryAvatar]: [props.avatars[0]] is [undefined] on an empty array. *)
Definition primaryAvatar (props : Props) : option ConvoParticipantEntry :=
  match primary props with
  | Some p => Some p
  | None => nth_error (avatars props) 0
  end.

(** The attributes of one [<UnUiAvatar>] element. *)
Record UnUiAvatar : Type := mkAvatar {
  publicIdAttr : string;
  avatarTimestampAttr : option Z;
  altAttr : string;
  typeAttr : string;
  colorAttr : string;
  sizeAttr : Size
}.

(** Both [<UnUiAvatar>] elements of the template bind the same fields and
    have [size="lg"]. *)
Definition avatarElement (e : ConvoParticipantEntry) : UnUiAvatar :=
  mkAvatar (avatarProfilePublicId e) (avatarTimestamp e) (name e) (type e)
    (color e) lg.

(** The [<NuxtUiPopover>]: the number shown after the plus sign and, in its
    panel, one keyed avatar per element of [avatarArray]. *)
Record Popover : Type := mkPopover {
  plus : Z;
  panel : list (string * UnUiAvatar)
}.

Record View : Type := mkView {
  main : option UnUiAvatar;
  popover : option Popover
}.

(** The template.  The two [v-if] decide what is there at all. *)
Definition render (props : Props) : View :=
  mkView
    (option_map avatarElement (primaryAvatar props))
    (if Z.of_nat (length (avatars props)) + 1 >? limit props
     then
       Some
         (mkPopover
            (Z.of_nat (length (avatars props)) - limit props + 1)
            (map (fun avatar => (participantPublicId avatar,
                                 avatarElement avatar))
               (avatarArray props)))
     else None).

End AvatarPlus.

(** ** The rotation request before its defaults *)

Module UpdatePasswordRequest.

(** The body of an [updateUserPassword] call as the client sends it:
    [invalidateAllSessions] may be left out. *)
Record t : Type := mk {
  oldPassword : string;
  newPassword : string;
  otp : string;
  invalidateAllSessions : option bool
}.

(** [invalidateAllSessions: z.boolean().default(false)] *)
Definition withDefault (r : t) : UpdatePasswordInput.t :=
  UpdatePasswordInput.mk (oldPassword r) (newPassword r) (otp r)
    (match invalidateAllSessions r with
     | Some b => b
     | None => false
     end).

End UpdatePasswordRequest.

(** ** More sample collaborators and requests *)

Module MoreFake.

(** [tx.rollback()] raises. *)
Definition rollbackRaises : Collaborators :=
  Build_Collaborators Fake.hash Fake.verify (fun _ => []) Fake.totp
    Fake.typeId Fake.validate Fake.cookie (inl (LibError "Rollback")).

End MoreFake.

Module MoreScenario.

Definition signUpDave : SignUpInput.t :=
  SignUpInput.mk "dave" "Str0ng!Passw0rd".

(** two factors for a username the sample world does not hold *)
Definition mallory : SignInInput.t :=
  SignInInput.mk "mallory" Scenario.pw (Some "123456") None.

(** a password and a one-time code for the account just signed up *)
Definition daveSignsIn : SignInInput.t :=
  SignInInput.mk "dave" (Some "Str0ng!Passw0rd") (Some "123456") None.

(** a rotation that keeps the other sessions *)
Definition rotateAliceKeep : UpdatePasswordInput.t :=
  UpdatePasswordInput.mk "Str0ng!Passw0rd" "N3w!Passw0rd" "123456" false.

(** a rotation request that leaves [invalidateAllSessions] out *)
Definition rotateAliceBare : UpdatePasswordRequest.t :=
  UpdatePasswordRequest.mk "Str0ng!Passw0rd" "N3w!Passw0rd" "123456" None.

(** a rotation with a wrong old password and a right one-time code *)
Definition rotateAliceWrongOld : UpdatePasswordInput.t :=
  UpdatePasswordInput.mk "not my password" "N3w!Passw0rd" "123456" true.

Definition ann : AvatarPlus.ConvoParticipantEntry :=
  AvatarPlus.mkEntry "cp_ann" "up_ann" (Some 1700000000) "Ann" "user" "red".

Definition ben : AvatarPlus.ConvoParticipantEntry :=
  AvatarPlus.mkEntry "cp_ben" "up_ben" None "Ben" "contact" "blue".

(** no primary participant, two avatars, [size] and [limit] left out *)
Definition noPrimary : AvatarPlus.PropsIn :=
  AvatarPlus.mkPropsIn None [ann; ben] None None.

End MoreScenario.

(** ** Proof automation *)

(** Case analysis on the next test the program makes. *)
Ltac next_test :=
  match goal with
  | |- context [if negb ?b then _ else _] =>
      lazymatch b with
      | context [if _ then _ else _] => fail
      | context [match _ with _ => _ end] => fail
      | _ => destruct b eqn:?
      end
  | |- context [if ?b then _ else _] =>
      lazymatch b with
      | context [if _ then _ else _] => fail
      | context [match _ with _ => _ end] => fail
      | _ => destruct b eqn:?
      end
  end.

Ltac symex := repeat (cbn in *; try next_test).

(** Case analysis on which factors a request supplies, given the guard. *)
Ltac split_factors input Hs :=
  unfold twoFactorsSupplied in Hs;
  destruct (truthy (SignInInput.password input)) eqn:?;
  destruct (truthy (SignInInput.twoFactorCode input)) eqn:?;
  destruct (truthy (SignInInput.recoveryCode input)) eqn:?;
  cbn in Hs; try discriminate Hs.

(** One call of a request bound to an outcome: its effect on the world is
    shown by [tac], its answer is the one [exec] computes. *)
Ltac one_call tac :=
  apply safe_Act;
  [ intros ? ?; cbn; tac
  | let Hex := fresh "Hex" in
    intros ? ? ? ? Hex; cbn in Hex; inversion Hex; subst; clear Hex; cbn
  | let Hex := fresh "Hex" in
    intros ? ? ? _ Hex; cbn in Hex; discriminate Hex ].

(** Case analysis on whether the next call rejects under the oracle [f]. *)
Ltac next_fault f :=
  match goal with
  | |- context [f ?X ?op ?w] =>
      let message := fresh "message" in
      destruct (f X op w) as [message |] eqn:?
  end.

Ltac symexF f :=
  repeat (cbn in *; unfold execF in *; try first [next_fault f | next_test]).

(** ** General facts about the semantics *)

Section Facts.
Context {E : Collaborators}.

Lemma run_bind {A B : Type} (p : prog A) (f : A -> prog B) (w : world) :
  run (bind p f) w =
  match run p w with
  | (inr a, w') => run (f a) w'
  | (inl e, w') => (inl e, w')
  end.
Proof.
  revert B f w.
  induction p as [A a | A e | A X op k IH | A X body IHb h IHh k IH
                 | A X body IHb k IH]; intros B f w; simpl.
  - reflexivity.
  - reflexivity.
  - destruct (exec op w) as [[e | x] w1]; [reflexivity | apply IH].
  - destruct (run body w) as [[e | x] w1].
    + destruct (run (h e) w1) as [[e' | x] w2]; [reflexivity | apply IH].
    + apply IH.
  - destruct (run body (tx_begin w)) as [[e | x] w1];
      [reflexivity | apply IH].
Qed.

Lemma run_of_result {A : Type} (r : error + A) (w : world) :
  run (of_result r) w = (r, w).
Proof. destruct r; reflexivity. Qed.

(** Taking one turn and then running to the end is running to the end. *)
Lemma run_step {A : Type} (p : prog A) (w : world) :
  run (fst (step p w)) (snd (step p w)) = run p w.
Proof.
  destruct p as [a | e | X op k | X body h k | X body k].
  - reflexivity.
  - reflexivity.
  - simpl. destruct (exec op w) as [[e | x] w1]; reflexivity.
  - unfold step. destruct (run (TryCatch body h k) w) as [r w1].
    apply run_of_result.
  - unfold step. destruct (run (Transaction body k) w) as [r w1].
    apply run_of_result.
Qed.

(** With an empty schedule the two requests run one after the other. *)
Lemma interleave_nil {A B : Type} (p : prog A) (q : prog B) (w : world) :
  interleave [] p q w =
  (fst (run p w), fst (run q (snd (run p w))),
   snd (run q (snd (run p w)))).
Proof.
  simpl. destruct (run p w) as [r1 w1]. simpl.
  destruct (run q w1) as [r2 w2]. reflexivity.
Qed.

(** Updating by id keeps the usernames, so a lookup by username finds the
    same row, updated. *)
Lemma find_byUsername_update (u : string) (s : AccountPatch) (i : Z)
  (d : list Account) :
  find (byUsername u) (update s i d) =
  option_map (fun a => if byId i a then patch s a else a)
    (find (byUsername u) d).
Proof.
  induction d as [| a d IH]; simpl; [reflexivity |].
  assert (Hu : byUsername u (if byId i a then patch s a else a)
               = byUsername u a).
  { destruct (byId i a); [destruct s |]; reflexivity. }
  rewrite Hu. destruct (byUsername u a); [reflexivity | apply IH].
Qed.

End Facts.

(** ** Sign-in *)

Section SignIn.
Context {E : Collaborators}.

Lemma truthy_present (v : jsstring) : truthy v = true -> present v = 1%nat.
Proof. destruct v; [reflexivity | discriminate]. Qed.

Lemma twoFactorsSupplied_present (input : SignInInput.t) :
  twoFactorsSupplied input = true -> (2 <= factorsPresent input)%nat.
Proof.
  unfold twoFactorsSupplied, factorsPresent.
  destruct (truthy (SignInInput.password input)) eqn:Hp;
    destruct (truthy (SignInInput.twoFactorCode input)) eqn:Ho;
    destruct (truthy (SignInInput.recoveryCode input)) eqn:Hr;
    simpl; try discriminate; intros _;
    repeat match goal with
           | H : truthy _ = true |- _ =>
               apply truthy_present in H; rewrite H
           end; lia.
Qed.

(** C5: a request with fewer than two factors present is rejected with
    [InsufficientFactors]; the handler is then the bare [throw], so the run
    makes no call at all (no account lookup) and leaves the world as it
    was. *)
Theorem signIn_insufficient_factors (input : SignInInput.t) :
  (factorsPresent input < 2)%nat ->
  signInWithPassword input = Throw InsufficientFactors
  /\ forall w : world,
      run (signInWithPassword input) w = (inl InsufficientFactors, w).
Proof.
  intros H.
  assert (Hs : twoFactorsSupplied input = false).
  { destruct (twoFactorsSupplied input) eqn:Hs; [| reflexivity].
    apply twoFactorsSupplied_present in Hs. lia. }
  assert (Hp : signInWithPassword input = Throw InsufficientFactors).
  { unfold signInWithPassword. rewrite Hs. reflexivity. }
  split; [exact Hp |]. intros w. rewrite Hp. reflexivity.
Qed.

(** The guard counts a factor only when it is truthy: an empty string is as
    good as none. *)
Lemma signIn_guard (input : SignInInput.t) (w : world) :
  twoFactorsSupplied input = false ->
  run (signInWithPassword input) w = (inl InsufficientFactors, w).
Proof.
  intros Hs. unfold signInWithPassword. rewrite Hs. reflexivity.
Qed.

(** Past the guard and the lookup, sign-in is the three checks and the
    decision. *)
Lemma run_signIn_found (input : SignInInput.t) (w : world) (u : Account) :
  twoFactorsSupplied input = true ->
  find (byUsername (SignInInput.username input)) (db w) = Some u ->
  run (signInWithPassword input) w
  = run (verifyFactors input u) (log CQuery w).
Proof.
  intros Hs Hf. unfold signInWithPassword. rewrite Hs. cbn.
  rewrite Hf. reflexivity.
Qed.

(** C4: when the account found has no password hash, a request that
    supplies a password and one more factor fails with
    [PasswordSignInDisabled] (so not with [InvalidCredentials]); the check is
    the first after the lookup and nothing is written. *)
Theorem signIn_password_disabled (input : SignInInput.t) (w : world)
  (u : Account) :
  find (byUsername (SignInInput.username input)) (db w) = Some u ->
  truthy (passwordHash u) = false ->
  truthy (SignInInput.password input) = true ->
  truthy (SignInInput.twoFactorCode input)
  || truthy (SignInInput.recoveryCode input) = true ->
  run (signInWithPassword input) w = (inl PasswordSignInDisabled, log CQuery w)
  /\ fst (run (signInWithPassword input) w) <> inl InvalidCredentials.
Proof.
  intros Hf Hh Hp Hother.
  assert (Hs : twoFactorsSupplied input = true).
  { unfold twoFactorsSupplied. rewrite Hp.
    destruct (truthy (SignInInput.twoFactorCode input));
      destruct (truthy (SignInInput.recoveryCode input));
      try reflexivity; discriminate. }
  assert (Hr : run (signInWithPassword input) w
               = (inl PasswordSignInDisabled, log CQuery w)).
  { rewrite (run_signIn_found input w u Hs Hf).
    unfold verifyFactors, verifyPassword. rewrite Hp, Hh. reflexivity. }
  split; [exact Hr |]. rewrite Hr. simpl. discriminate.
Qed.

(** Every supplied factor that comes back from its check came back valid. *)
Lemma verifyPassword_outcome (input : SignInInput.t) (u : Account)
  (w w' : world) (v : bool) :
  run (verifyPassword input u) w = (inr v, w') ->
  v = truthy (SignInInput.password input).
Proof.
  unfold verifyPassword. symex; intros H; inversion H; reflexivity.
Qed.

Lemma verifyOtp_outcome (input : SignInInput.t) (u : Account)
  (w w' : world) (v : bool) :
  run (verifyOtp input u) w = (inr v, w') ->
  v = truthy (SignInInput.twoFactorCode input).
Proof.
  unfold verifyOtp. symex; intros H; inversion H; reflexivity.
Qed.

Lemma verifyRecoveryCode_outcome (input : SignInInput.t) (u : Account)
  (w w' : world) (v : bool) :
  run (verifyRecoveryCode input u) w = (inr v, w') ->
  v = truthy (SignInInput.recoveryCode input).
Proof.
  unfold verifyRecoveryCode. symex; intros H; inversion H; reflexivity.
Qed.

(** What a run that found the account can end in. *)
Lemma signIn_found_outcome (input : SignInInput.t) (w : world)
  (u : Account) :
  twoFactorsSupplied input = true ->
  find (byUsername (SignInInput.username input)) (db w) = Some u ->
  fst (run (signInWithPassword input) w) = inr success
  \/ exists e : error,
      In e factorErrors /\ fst (run (signInWithPassword input) w) = inl e.
Proof.
  intros Hs Hf. rewrite (run_signIn_found input w u Hs Hf).
  unfold verifyFactors, verifyPassword, verifyOtp, verifyRecoveryCode, decide.
  split_factors input Hs; symex;
    solve [ left; reflexivity
          | right; eexists; split; [| reflexivity]; cbn; tauto ].
Qed.

Lemma signIn_found_not_generic (input : SignInInput.t) (w : world)
  (u : Account) :
  twoFactorsSupplied input = true ->
  find (byUsername (SignInInput.username input)) (db w) = Some u ->
  fst (run (signInWithPassword input) w) <> inl AuthenticationFailed.
Proof.
  intros Hs Hf.
  destruct (signIn_found_outcome input w u Hs Hf) as [H | [e [Hin H]]];
    rewrite H; [discriminate |].
  cbn in Hin.
  repeat (destruct Hin as [<- | Hin]; [discriminate |]).
  contradiction.
Qed.

(** When the account is found and every call answers: for a request that
    passes the two-factor guard, the outcomes of the three checks, whenever
    all three checks return, satisfy the final condition; hence the run
    never ends in the generic [AuthenticationFailed], and a failing run ends
    in one of the six factor errors, thrown by a check before the
    decision. *)
Theorem signIn_generic_failure_unreachable (input : SignInInput.t)
  (w : world) (u : Account) :
  twoFactorsSupplied input = true ->
  find (byUsername (SignInInput.username input)) (db w) = Some u ->
  (forall (w1 w1' w2 w2' w3 w3' : world) (vp ov rv : bool),
      run (verifyPassword input u) w1 = (inr vp, w1') ->
      run (verifyOtp input u) w2 = (inr ov, w2') ->
      run (verifyRecoveryCode input u) w3 = (inr rv, w3') ->
      (vp && ov) || (vp && rv) || (ov && rv) = true)
  /\ fst (run (signInWithPassword input) w) <> inl AuthenticationFailed
  /\ (fst (run (signInWithPassword input) w) = inr success
      \/ exists e : error,
          In e factorErrors
          /\ fst (run (signInWithPassword input) w) = inl e).
Proof.
  intros Hs Hf. split; [| split].
  - intros w1 w1' w2 w2' w3 w3' vp ov rv H1 H2 H3.
    apply verifyPassword_outcome in H1.
    apply verifyOtp_outcome in H2.
    apply verifyRecoveryCode_outcome in H3.
    subst vp ov rv. unfold twoFactorsSupplied in Hs.
    destruct (truthy (SignInInput.password input));
      destruct (truthy (SignInInput.twoFactorCode input));
      destruct (truthy (SignInInput.recoveryCode input));
      solve [reflexivity | discriminate Hs].
  - exact (signIn_found_not_generic input w u Hs Hf).
  - exact (signIn_found_outcome input w u Hs Hf).
Qed.

(** No run of sign-in at all ends in [AuthenticationFailed]. *)
Lemma signIn_never_AuthenticationFailed (input : SignInInput.t)
  (w : world) :
  fst (run (signInWithPassword input) w) <> inl AuthenticationFailed.
Proof.
  destruct (twoFactorsSupplied input) eqn:Hs.
  - destruct (find (byUsername (SignInInput.username input)) (db w))
      as [u |] eqn:Hf.
    + apply (signIn_found_not_generic input w u Hs Hf).
    + unfold signInWithPassword. rewrite Hs. cbn. rewrite Hf.
      cbn. discriminate.
  - unfold signInWithPassword. rewrite Hs. cbn. discriminate.
Qed.

(** When every call answers, a run of sign-in that throws leaves the
    account table as it found it (and creates no session and sets no
    cookie): the recovery code is cleared and [lastLoginAt] written only on
    runs that succeed.  With calls that reject this is no longer so. *)
Theorem signIn_error_leaves_accounts (input : SignInInput.t) (w w' : world)
  (e : error) :
  run (signInWithPassword input) w = (inl e, w') ->
  db w' = db w /\ sessions w' = sessions w /\ cookies w' = cookies w.
Proof.
  destruct (twoFactorsSupplied input) eqn:Hs.
  - destruct (find (byUsername (SignInInput.username input)) (db w))
      as [u |] eqn:Hf.
    + rewrite (run_signIn_found input w u Hs Hf).
      unfold verifyFactors, verifyPassword, verifyOtp, verifyRecoveryCode,
        decide.
      split_factors input Hs; symex; intros H; inversion H; subst;
        cbn; auto.
    + unfold signInWithPassword. rewrite Hs. cbn. rewrite Hf. cbn.
      intros H; inversion H; subst; cbn; auto.
  - unfold signInWithPassword. rewrite Hs. cbn.
    intros H; inversion H; subst; auto.
Qed.

(** C1 (as the code has it): the checks run in the order password,
    one-time code, recovery code, and a supplied factor that does not verify
    throws at once.  With all three factors supplied and enrolled and
    exactly two of the three verifications valid, sign-in fails with the
    error of the factor that did not verify, and writes nothing. *)
Theorem signIn_three_factors_one_wrong (input : SignInInput.t) (w : world)
  (u : Account) :
  find (byUsername (SignInInput.username input)) (db w) = Some u ->
  truthy (SignInInput.password input) = true ->
  truthy (SignInInput.twoFactorCode input) = true ->
  truthy (SignInInput.recoveryCode input) = true ->
  truthy (passwordHash u) = true ->
  truthy (twoFactorSecret u) = true ->
  truthy (recoveryCode u) = true ->
  let vp := argon2id_verify (str (passwordHash u))
              (str (SignInInput.password input)) in
  let ov := totp_verify (clock w) (str (SignInInput.twoFactorCode input))
              (decodeHex (str (twoFactorSecret u))) in
  let rv := argon2id_verify (str (recoveryCode u))
              (str (SignInInput.recoveryCode input)) in
  validOutcomes vp ov rv = 2%nat ->
  fst (run (signInWithPassword input) w)
  = inl (if negb vp then InvalidCredentials
         else if negb ov then InvalidOtp else InvalidRecoveryCode)
  /\ db (snd (run (signInWithPassword input) w)) = db w
  /\ sessions (snd (run (signInWithPassword input) w)) = sessions w
  /\ cookies (snd (run (signInWithPassword input) w)) = cookies w.
Proof.
  intros Hf Hp Ho Hr Hph Hts Hrc vp ov rv Htwo.
  assert (Hs : twoFactorsSupplied input = true).
  { unfold twoFactorsSupplied. rewrite Hp, Ho, Hr. reflexivity. }
  rewrite (run_signIn_found input w u Hs Hf).
  unfold verifyFactors, verifyPassword, verifyOtp, verifyRecoveryCode, decide.
  rewrite Hp, Ho, Hr, Hph, Hts, Hrc. cbn.
  fold vp. destruct vp; cbn.
  - fold ov. destruct ov; cbn.
    + fold rv. destruct rv; cbn.
      * discriminate Htwo.
      * auto.
    + auto.
  - auto.
Qed.

(** The two runs of the checks that matter for a recovery code: with the
    code stored and valid, and with no code stored. *)
Lemma verifyFactors_code_valid (input : SignInInput.t) (a : Account)
  (w : world) :
  truthy (SignInInput.password input) = true ->
  truthy (SignInInput.twoFactorCode input) = false ->
  truthy (SignInInput.recoveryCode input) = true ->
  truthy (passwordHash a) = true ->
  truthy (recoveryCode a) = true ->
  argon2id_verify (str (passwordHash a))
    (str (SignInInput.password input)) = true ->
  argon2id_verify (str (recoveryCode a))
    (str (SignInInput.recoveryCode input)) = true ->
  exists w1 : world,
    run (verifyFactors input a) w = (inr success, w1)
    /\ db w1 = update (SetLastLoginAt (clock w)) (id a)
                 (update (SetRecoveryCode None) (id a) (db w)).
Proof.
  intros Hp Ho Hr Hph Hrc Hvp Hvr.
  unfold verifyFactors, verifyPassword, verifyOtp, verifyRecoveryCode, decide.
  rewrite Hp, Ho, Hr, Hph, Hrc. cbn. rewrite Hvp. cbn. rewrite Hvr. cbn.
  eexists. split; reflexivity.
Qed.

Lemma verifyFactors_no_code (input : SignInInput.t) (a : Account)
  (w : world) :
  truthy (SignInInput.password input) = true ->
  truthy (SignInInput.twoFactorCode input) = false ->
  truthy (SignInInput.recoveryCode input) = true ->
  truthy (passwordHash a) = true ->
  truthy (recoveryCode a) = false ->
  argon2id_verify (str (passwordHash a))
    (str (SignInInput.password input)) = true ->
  run (verifyFactors input a) w
  = (inl RecoverySignInDisabled, log CVerify w).
Proof.
  intros Hp Ho Hr Hph Hrc Hvp.
  unfold verifyFactors, verifyPassword, verifyOtp, verifyRecoveryCode, decide.
  rewrite Hp, Ho, Hr, Hph, Hrc. cbn. rewrite Hvp. reflexivity.
Qed.

(** After the two updates of a successful sign-in the account is found
    again, without its recovery code. *)
Lemma find_after_signIn (name : string) (u : Account) (t : Z)
  (d : list Account) :
  find (byUsername name) d = Some u ->
  find (byUsername name)
    (update (SetLastLoginAt t) (id u)
       (update (SetRecoveryCode None) (id u) d))
  = Some (patch (SetLastLoginAt t) (patch (SetRecoveryCode None) u)).
Proof.
  intros Hf. rewrite !find_byUsername_update, Hf. cbn. unfold byId.
  rewrite Z.eqb_refl. cbn. rewrite Z.eqb_refl. reflexivity.
Qed.

(** A successful sign-in that was given a recovery code leaves the account
    without it: the row found is the old one with the code cleared and the
    login time set. *)
Lemma signIn_success_clears_code (input : SignInInput.t) (w w1 : world)
  (u : Account) :
  find (byUsername (SignInInput.username input)) (db w) = Some u ->
  truthy (SignInInput.recoveryCode input) = true ->
  run (signInWithPassword input) w = (inr success, w1) ->
  find (byUsername (SignInInput.username input)) (db w1)
  = Some (patch (SetLastLoginAt (clock w)) (patch (SetRecoveryCode None) u)).
Proof.
  intros Hf Hr.
  destruct (twoFactorsSupplied input) eqn:Hs.
  - rewrite (run_signIn_found input w u Hs Hf).
    unfold verifyFactors, verifyPassword, verifyOtp, verifyRecoveryCode,
      decide.
    rewrite Hr. unfold twoFactorsSupplied in Hs. rewrite Hr in Hs.
    destruct (truthy (SignInInput.password input)) eqn:?;
      destruct (truthy (SignInInput.twoFactorCode input)) eqn:?;
      cbn in Hs; try discriminate Hs;
      symex; intros H; inversion H; subst; cbn;
      apply find_after_signIn; exact Hf.
  - unfold signInWithPassword. rewrite Hs. cbn. discriminate.
Qed.

(** C3 (as the code has it): a successful sign-in that was given a
    recovery code leaves the stored recovery code absent.  A sign-in with a
    correct password and a correct recovery code does succeed, and a later
    attempt on the resulting account table with the same request fails with
    [RecoverySignInDisabled], the error of the check that finds no recovery
    code enrolled. *)
Theorem signIn_recovery_code_single_use (input : SignInInput.t) (w : world)
  (u : Account) :
  find (byUsername (SignInInput.username input)) (db w) = Some u ->
  truthy (SignInInput.recoveryCode input) = true ->
  (forall w1 : world,
      run (signInWithPassword input) w = (inr success, w1) ->
      exists u1 : Account,
        find (byUsername (SignInInput.username input)) (db w1) = Some u1
        /\ recoveryCode u1 = None)
  /\ (truthy (SignInInput.password input) = true ->
      truthy (SignInInput.twoFactorCode input) = false ->
      truthy (passwordHash u) = true ->
      truthy (recoveryCode u) = true ->
      argon2id_verify (str (passwordHash u))
        (str (SignInInput.password input)) = true ->
      argon2id_verify (str (recoveryCode u))
        (str (SignInInput.recoveryCode input)) = true ->
      exists w1 : world,
        run (signInWithPassword input) w = (inr success, w1)
        /\ forall w2 : world,
            db w2 = db w1 ->
            fst (run (signInWithPassword input) w2)
            = inl RecoverySignInDisabled).
Proof.
  intros Hf Hr. split.
  - intros w1 Hrun. eexists. split.
    + exact (signIn_success_clears_code input w w1 u Hf Hr Hrun).
    + reflexivity.
  - intros Hp Ho Hph Hrc Hvp Hvr.
    assert (Hs : twoFactorsSupplied input = true).
    { unfold twoFactorsSupplied. rewrite Hp, Ho, Hr. reflexivity. }
    rewrite (run_signIn_found input w u Hs Hf).
    destruct (verifyFactors_code_valid input u (log CQuery w)
                Hp Ho Hr Hph Hrc Hvp Hvr) as [w1 [Hrun Hdb]].
    exists w1. split; [exact Hrun |].
    pose proof (find_after_signIn _ u (clock w) (db w) Hf) as Hf1.
    cbn in Hdb. rewrite <- Hdb in Hf1.
    intros w2 Hdb2. rewrite <- Hdb2 in Hf1.
    rewrite (run_signIn_found input w2 _ Hs Hf1).
    rewrite verifyFactors_no_code; auto.
Qed.

End SignIn.

(** ** Password rotation *)

Section Rotation.
Context {E : Collaborators}.

(** C7: once the old password has verified, rotation fails with
    [TwoFactorNotEnabled] when the account has no second factor secret (an
    empty one counts as none) and with [InvalidOtp] when it has one and the
    code does not verify; either way the stored password hash and the rest of
    the account table stay as they were, and no session or cookie is
    created. *)
Theorem updateUserPassword_requires_otp (accountId : Z)
  (input : UpdatePasswordInput.t) (w : world) (a : Account) :
  find (byId accountId) (db w) = Some a ->
  truthy (passwordHash a) = true ->
  argon2id_verify (str (passwordHash a))
    (UpdatePasswordInput.oldPassword input) = true ->
  let r := run (updateUserPassword accountId input) w in
  (truthy (twoFactorSecret a) = false -> fst r = inl TwoFactorNotEnabled)
  /\ (truthy (twoFactorSecret a) = true ->
      totp_verify (clock w) (UpdatePasswordInput.otp input)
        (decodeHex (str (twoFactorSecret a))) = false ->
      fst r = inl InvalidOtp)
  /\ (truthy (twoFactorSecret a) = false
      \/ totp_verify (clock w) (UpdatePasswordInput.otp input)
           (decodeHex (str (twoFactorSecret a))) = false ->
      db (snd r) = db w
      /\ find (byId accountId) (db (snd r)) = Some a
      /\ sessions (snd r) = sessions w
      /\ cookies (snd r) = cookies w).
Proof.
  intros Hf Hph Hv r. subst r.
  unfold updateUserPassword. cbn. rewrite Hf. cbn. rewrite Hph. cbn.
  rewrite Hv. cbn.
  destruct (truthy (twoFactorSecret a)) eqn:Hts; cbn.
  - destruct (totp_verify (clock w) (UpdatePasswordInput.otp input)
                (decodeHex (str (twoFactorSecret a)))) eqn:Ho; cbn.
    + split; [discriminate |]. split; [discriminate |].
      intros [H | H]; discriminate H.
    + split; [discriminate |]. split; [reflexivity |]. auto.
  - split; [reflexivity |]. split; [discriminate |]. auto.
Qed.

(** C8: with [invalidateAllSessions] set, a rotation that goes through
    first removes every session of the account and then creates the new
    one: the session table afterwards is the old one without the account's
    sessions, followed by the new session, which is therefore the only
    session of the account; in the record of calls the invalidation comes
    right before the creation. *)
Theorem updateUserPassword_invalidates_before_issuing (accountId : Z)
  (input : UpdatePasswordInput.t) (w : world) (a : Account) (h : string) :
  find (byId accountId) (db w) = Some a ->
  truthy (passwordHash a) = true ->
  argon2id_verify (str (passwordHash a))
    (UpdatePasswordInput.oldPassword input) = true ->
  truthy (twoFactorSecret a) = true ->
  totp_verify (clock w) (UpdatePasswordInput.otp input)
    (decodeHex (str (twoFactorSecret a))) = true ->
  argon2id_hash (entropy w) (UpdatePasswordInput.newPassword input)
  = inr h ->
  UpdatePasswordInput.invalidateAllSessions input = true ->
  let issued :=
    mkSession (nextSessionId w) accountId (username a) (publicId a) in
  exists w' : world,
    run (updateUserPassword accountId input) w = (inr success, w')
    /\ sessions w' = (invalidate accountId (sessions w) ++ [issued])%list
    /\ In issued (sessions w')
    /\ (forall s : Session,
           In s (sessions w') -> userId s = accountId -> s = issued)
    /\ calls w'
       = (calls w ++ [CQuery; CVerify; CTotp; CHash; CUpdate;
                      CSessionInvalidate; CSessionCreate; CSetCookie])%list
    /\ cookies w' = (cookies w ++ [createSessionCookie (nextSessionId w)])%list.
Proof.
  intros Hf Hph Hv Hts Ho Hh Hinv issued.
  unfold updateUserPassword. cbn. rewrite Hf. cbn. rewrite Hph. cbn.
  rewrite Hv. cbn. rewrite Hts. cbn. rewrite Ho. cbn. rewrite Hh. cbn.
  rewrite Hinv. cbn.
  eexists. split; [reflexivity |]. cbn.
  split; [reflexivity |].
  split; [apply in_or_app; right; left; reflexivity |].
  split; [| split; [| reflexivity]].
  - intros s Hin Hs. apply in_app_or in Hin. destruct Hin as [Hin | Hin].
    + unfold invalidate in Hin. apply filter_In in Hin.
      destruct Hin as [_ Hne]. rewrite <- Hs, Z.eqb_refl in Hne.
      discriminate Hne.
    + destruct Hin as [<- | []]. reflexivity.
  - repeat rewrite <- app_assoc. reflexivity.
Qed.

End Rotation.

(** ** Sign-up *)

Section SignUp.
Context {E : Collaborators}.

(** A sign-up that ends in an error leaves the store as it was, whatever the
    collaborators do. *)
Lemma signUp_rolls_back (input : SignUpInput.t) (w w' : world) (e : error) :
  run (signUpWithPassword input) w = (inl e, w') ->
  db w' = db w /\ sessions w' = sessions w /\ cookies w' = cookies w.
Proof.
  unfold signUpWithPassword. cbn.
  destruct (validateUsername (db w) (SignUpInput.username input))
    as [e0 | [available reason]]; cbn.
  - destruct txRollback as [er | []]; cbn; intros H; inversion H; subst;
      cbn; auto.
  - destruct available; cbn.
    + destruct (argon2id_hash (entropy w) (SignUpInput.password input))
        as [e1 | h]; cbn.
      * destruct txRollback as [er | []]; cbn; intros H; inversion H; subst;
          cbn; auto.
      * destruct (existsb (byUsername (SignUpInput.username input)) (db w));
          cbn; [| discriminate].
        destruct txRollback as [er | []]; cbn; intros H; inversion H; subst;
          cbn; auto.
    + destruct txRollback as [er | []]; cbn; intros H; inversion H; subst;
        cbn; auto.
Qed.

(** A sign-up that ends in an error leaves no trace in the store: the
    account table, the session table and the cookies are as before the
    call, whichever step of the transaction failed.  Were [tx.rollback()] to
    return, the error that reaches the caller would be the one the failing
    step raised (the validator's exception, [UsernameUnavailable] with the
    validator's reason, the hasher's exception, or the store's refusal to
    insert), and it would be the one entry written to the console. *)
Theorem signUp_atomic (input : SignUpInput.t) (w w' : world) (e : error) :
  run (signUpWithPassword input) w = (inl e, w') ->
  (db w' = db w /\ sessions w' = sessions w /\ cookies w' = cookies w)
  /\ (txRollback = inr tt ->
      console w' = (console w ++ [e])%list
      /\ (validateUsername (db w) (SignUpInput.username input) = inl e
          \/ (exists reason : jsstring,
                 validateUsername (db w) (SignUpInput.username input)
                 = inr (false, reason)
                 /\ e = UsernameUnavailable reason)
          \/ argon2id_hash (entropy w) (SignUpInput.password input) = inl e
          \/ (existsb (byUsername (SignUpInput.username input)) (db w)
              = true
              /\ e = DuplicateEntry))).
Proof.
  unfold signUpWithPassword. cbn.
  destruct (validateUsername (db w) (SignUpInput.username input))
    as [e0 | [available reason]] eqn:Hv; cbn.
  - destruct txRollback as [er | []]; cbn; intros H; inversion H; subst;
      cbn; (split; [auto |]); intros Hr; [discriminate Hr | auto].
  - destruct available; cbn.
    + destruct (argon2id_hash (entropy w) (SignUpInput.password input))
        as [e1 | h] eqn:Hh; cbn.
      * destruct txRollback as [er | []]; cbn; intros H; inversion H; subst;
          cbn; (split; [auto |]); intros Hr; [discriminate Hr | auto].
      * destruct (existsb (byUsername (SignUpInput.username input)) (db w))
          eqn:Hex; cbn.
        -- destruct txRollback as [er | []]; cbn; intros H; inversion H;
             subst; cbn; (split; [auto |]); intros Hr;
             [discriminate Hr | auto 6].
        -- intros H; discriminate H.
    + destruct txRollback as [er | []]; cbn; intros H; inversion H; subst;
        cbn; (split; [auto |]); intros Hr; [discriminate Hr |].
      split; [reflexivity |]. right. left. exists reason. auto.
Qed.

(** When [tx.rollback()] itself raises, its error is the one that reaches the
    caller and the console stays as it was; the store is still untouched (by
    [signUp_rolls_back]). *)
Lemma signUp_rollback_raises (input : SignUpInput.t) (w w' : world)
  (e er : error) :
  txRollback = inl er ->
  run (signUpWithPassword input) w = (inl e, w') ->
  e = er /\ console w' = console w.
Proof.
  intros Hr. unfold signUpWithPassword. cbn. rewrite Hr.
  destruct (validateUsername (db w) (SignUpInput.username input))
    as [e0 | [available reason]]; cbn.
  - intros H; inversion H; subst; cbn; auto.
  - destruct available; cbn.
    + destruct (argon2id_hash (entropy w) (SignUpInput.password input))
        as [e1 | h]; cbn.
      * intros H; inversion H; subst; cbn; auto.
      * destruct (existsb (byUsername (SignUpInput.username input)) (db w));
          cbn; intros H; inversion H; subst; cbn; auto.
    + intros H; inversion H; subst; cbn; auto.
Qed.

(** Each failing step makes the sign-up fail. *)
Lemma signUp_fails_when_a_step_fails (input : SignUpInput.t) (w : world) :
  (exists e, validateUsername (db w) (SignUpInput.username input) = inl e)
  \/ (exists reason,
         validateUsername (db w) (SignUpInput.username input)
         = inr (false, reason))
  \/ (exists e,
         argon2id_hash (entropy w) (SignUpInput.password input) = inl e)
  \/ existsb (byUsername (SignUpInput.username input)) (db w) = true ->
  exists e : error, fst (run (signUpWithPassword input) w) = inl e.
Proof.
  intros H. unfold signUpWithPassword. cbn.
  destruct (validateUsername (db w) (SignUpInput.username input))
    as [e0 | [available reason]] eqn:Hv; cbn.
  - destruct txRollback as [er | []]; cbn; eexists; reflexivity.
  - destruct available; cbn.
    + destruct (argon2id_hash (entropy w) (SignUpInput.password input))
        as [e1 | h] eqn:Hh; cbn.
      * destruct txRollback as [er | []]; cbn; eexists; reflexivity.
      * destruct (existsb (byUsername (SignUpInput.username input)) (db w))
          eqn:Hex; cbn.
        -- destruct txRollback as [er | []]; cbn; eexists; reflexivity.
        -- destruct H as [[e H] | [[r H] | [[e H] | H]]]; discriminate H.
    + destruct txRollback as [er | []]; cbn; eexists; reflexivity.
Qed.

(** C6: whenever a step of the sign-up transaction fails (the validator
    raises or turns the username down, the hashing raises, or the store
    refuses the row), the sign-up fails and leaves the account table, the
    sessions and the cookies as they were: no row stays, no session is
    issued.  But [tx.rollback()] comes first in the [catch] block, and the
    ORM's rollback raises: the error that reaches the caller is then the
    rollback's, not the one of the failing step, and nothing is written to
    the console. *)
Theorem signUp_failure_error_lost (input : SignUpInput.t) (w : world) :
  (exists e, validateUsername (db w) (SignUpInput.username input) = inl e)
  \/ (exists reason,
         validateUsername (db w) (SignUpInput.username input)
         = inr (false, reason))
  \/ (exists e,
         argon2id_hash (entropy w) (SignUpInput.password input) = inl e)
  \/ existsb (byUsername (SignUpInput.username input)) (db w) = true ->
  let r := run (signUpWithPassword input) w in
  (exists e : error, fst r = inl e)
  /\ db (snd r) = db w
  /\ sessions (snd r) = sessions w
  /\ cookies (snd r) = cookies w
  /\ (forall er : error,
         txRollback = inl er ->
         fst r = inl er /\ console (snd r) = console w).
Proof.
  intros Hstep. cbv zeta.
  destruct (signUp_fails_when_a_step_fails input w Hstep) as [e He].
  destruct (run (signUpWithPassword input) w) as [r w'] eqn:Hrun.
  cbn in *. subst r.
  destruct (signUp_rolls_back input w w' e Hrun) as [Hdb [Hs Hc]].
  split; [exists e; reflexivity |]. repeat (split; [assumption |]).
  intros er Hr.
  destruct (signUp_rollback_raises input w w' e er Hr Hrun) as [-> Hl].
  split; [reflexivity | exact Hl].
Qed.

(** A sign-up whose steps all go through creates the row and the session. *)
Lemma signUp_succeeds (input : SignUpInput.t) (w : world) (reason : jsstring)
  (h : string) :
  validateUsername (db w) (SignUpInput.username input)
  = inr (true, reason) ->
  argon2id_hash (entropy w) (SignUpInput.password input) = inr h ->
  existsb (byUsername (SignUpInput.username input)) (db w) = false ->
  exists w' : world,
    run (signUpWithPassword input) w = (inr success, w')
    /\ (exists a : Account,
           find (byUsername (SignUpInput.username input)) (db w') = Some a
           /\ passwordHash a = Some h
           /\ publicId a = typeIdGenerator (entropy w + 1) "account")
    /\ sessions w'
       = (sessions w
          ++ [mkSession (nextSessionId w) (Number (nextInsertId w))
                (SignUpInput.username input)
                (typeIdGenerator (entropy w + 1) "account")])%list.
Proof.
  intros Hv Hh Hex. unfold signUpWithPassword. cbn.
  rewrite Hv. cbn. rewrite Hh. cbn. rewrite Hex. cbn.
  eexists. split; [reflexivity |]. cbn. split; [| reflexivity].
  rewrite find_byUsername_update.
  assert (Hfind : forall d a,
             existsb (byUsername (username a)) d = false ->
             find (byUsername (username a)) (d ++ [a]) = Some a).
  { clear. intros d a. induction d as [| b d IH]; cbn.
    - intros _. unfold byUsername. rewrite String.eqb_refl. reflexivity.
    - destruct (byUsername (username a) b); cbn; [discriminate | exact IH]. }
  rewrite (Hfind (db w) (mkAccount _ _ (SignUpInput.username input) _ _ _ _)
             Hex).
  cbn. destruct (byId _ _); eexists; repeat split; reflexivity.
Qed.

End SignUp.

(** ** Two sign-ins in flight *)

Section SafeFacts.
Context {E : Collaborators}.
Context {A : Type}.
Variable I : world -> Prop.
Variable G : world -> world -> Prop.
Variable Q : error + A -> Prop.
Hypothesis G_refl : forall w, I w -> G w w.
Hypothesis G_trans : forall w1 w2 w3, G w1 w2 -> G w2 w3 -> G w1 w3.
Hypothesis G_I : forall w w', I w -> G w w' -> I w'.

Lemma safe_step (p : prog A) (w : world) :
  safe I G Q p -> I w ->
  safe I G Q (fst (step p w)) /\ G w (snd (step p w)).
Proof.
  intros H Hw. destruct H as [a Hq | e Hq | X op k HG Hk He]; cbn.
  - split; [constructor; exact Hq | apply G_refl; exact Hw].
  - split; [constructor; exact Hq | apply G_refl; exact Hw].
  - specialize (HG w Hw).
    destruct (exec op w) as [[e | x] w'] eqn:Hex; cbn in *.
    + split; [constructor; exact (He w e w' Hw Hex) | exact HG].
    + split; [exact (Hk w x w' Hw Hex) | exact HG].
Qed.

Lemma safe_run (p : prog A) :
  safe I G Q p ->
  forall w, I w -> Q (fst (run p w)) /\ G w (snd (run p w)).
Proof.
  induction 1 as [a Hq | e Hq | X op k HG Hk IH He]; intros w Hw; cbn.
  - split; [exact Hq | apply G_refl; exact Hw].
  - split; [exact Hq | apply G_refl; exact Hw].
  - specialize (HG w Hw).
    destruct (exec op w) as [[e | x] w'] eqn:Hex; cbn in *.
    + split; [exact (He w e w' Hw Hex) | exact HG].
    + destruct (IH w x w' Hw Hex w' (G_I w w' Hw HG)) as [Hq Hg].
      split; [exact Hq | exact (G_trans w w' _ HG Hg)].
Qed.

End SafeFacts.

Section TwoSignIns.
Context {E : Collaborators}.
Variable input : SignInInput.t.
Variable u : Account.
Variable w0 : world.

Hypothesis Hsup : twoFactorsSupplied input = true.
Hypothesis Hr : truthy (SignInInput.recoveryCode input) = true.
Hypothesis Hpw :
  truthy (SignInInput.password input) = true -> passwordValid input u.
Hypothesis Hotp :
  truthy (SignInInput.twoFactorCode input) = true ->
  otpValid input u (clock w0).
Hypothesis Hrc : recoveryCodeValid input u.

#[local] Abbreviation name := (SignInInput.username input).
#[local] Abbreviation stored := (codeStored name u).
#[local] Abbreviation cleared := (codeCleared name u).
#[local] Abbreviation inv := (known name u (clock w0)).
#[local] Abbreviation Good :=
  (safe inv (turn name u) (fun r => r = inr success)).
#[local] Abbreviation Bad :=
  (safe inv (turn name u) (fun r => r = inl RecoverySignInDisabled)).
#[local] Abbreviation rest := (verifyFactors input).

Lemma stored_not_cleared (w : world) : stored w -> cleared w -> False.
Proof.
  intros [a [Ha [_ [_ [_ Hs]]]]] [b [Hb [_ [_ [_ Hc]]]]].
  rewrite Ha in Hb. injection Hb as <-. rewrite Hs in Hc.
  destruct Hrc as [Hen _]. rewrite Hc in Hen. discriminate Hen.
Qed.

Lemma turn_refl (w : world) : inv w -> turn name u w w.
Proof. intros [_ H]. split; [reflexivity |]. split; [exact H | auto]. Qed.

Lemma turn_trans (w1 w2 w3 : world) :
  turn name u w1 w2 -> turn name u w2 w3 -> turn name u w1 w3.
Proof.
  intros [Hc12 [_ H12]] [Hc23 [H3 H23]].
  split; [congruence |]. split; [exact H3 | auto].
Qed.

Lemma turn_known (w w' : world) : inv w -> turn name u w w' -> inv w'.
Proof. intros [Hc _] [Hc' [H _]]. split; [congruence | exact H]. Qed.

Lemma turn_same_db (w w' : world) :
  db w' = db w -> clock w' = clock w -> inv w -> turn name u w w'.
Proof.
  intros Hdb Hc [_ H]. unfold turn, codeStored, codeCleared in *.
  rewrite Hdb. split; [exact Hc |]. split; [exact H | auto].
Qed.

Lemma seenAs_clear (code : jsstring) (i : Z) (d : list Account) :
  i = id u ->
  seenAs name u code d ->
  seenAs name u None (update (SetRecoveryCode None) i d).
Proof.
  intros -> [a [Ha [Hi [Hh [Hs _]]]]]. unfold seenAs.
  rewrite find_byUsername_update, Ha. cbn. unfold byId.
  rewrite Hi, Z.eqb_refl. eexists. split; [reflexivity |]. cbn. auto.
Qed.

Lemma seenAs_login (code : jsstring) (t i : Z) (d : list Account) :
  seenAs name u code d ->
  seenAs name u code (update (SetLastLoginAt t) i d).
Proof.
  intros [a [Ha [Hi [Hh [Hs Hc]]]]]. unfold seenAs.
  rewrite find_byUsername_update, Ha. cbn.
  destruct (byId i a); eexists; (split; [reflexivity |]); cbn; auto.
Qed.

Lemma turn_clear (w w' : world) (i : Z) :
  i = id u ->
  db w' = update (SetRecoveryCode None) i (db w) ->
  clock w' = clock w ->
  inv w -> turn name u w w'.
Proof.
  intros Hi Hdb Hc [_ H]. unfold turn, codeStored, codeCleared in *.
  rewrite Hdb. split; [exact Hc |]. split.
  - right. destruct H as [H | H]; exact (seenAs_clear _ i _ Hi H).
  - intros Hcl. exact (seenAs_clear _ i _ Hi Hcl).
Qed.

Lemma turn_login (w w' : world) (t i : Z) :
  db w' = update (SetLastLoginAt t) i (db w) ->
  clock w' = clock w ->
  inv w -> turn name u w w'.
Proof.
  intros Hdb Hc [_ H]. unfold turn, codeStored, codeCleared in *.
  rewrite Hdb. split; [exact Hc |]. split.
  - destruct H as [H | H]; [left | right]; apply seenAs_login; exact H.
  - intros Hcl. apply seenAs_login. exact Hcl.
Qed.

(** The effect of one call of sign-in on the world is a [turn]. *)
Ltac a_turn :=
  first
    [ apply turn_same_db; [reflexivity | reflexivity | assumption]
    | eapply turn_clear; [eassumption | reflexivity | reflexivity | assumption]
    | eapply turn_login; [reflexivity | reflexivity | assumption] ].

(** What is known to hold decides the tests that follow a call. *)
Ltac known_tests :=
  repeat match goal with
         | H : ?l = true |- context [?l] => rewrite H
         | H : clock ?w = _ |- context [clock ?w] => rewrite H
         end.

Ltac calls :=
  repeat (one_call a_turn;
          [ match goal with H : known _ _ _ _ |- _ => destruct H as [? _] end;
            known_tests; cbn ]).

(** A request that looked the account up while the code was stored goes on
    to succeed, whatever happens to the table meanwhile. *)
Lemma rest_good (a : Account) :
  id a = id u ->
  passwordHash a = passwordHash u ->
  twoFactorSecret a = twoFactorSecret u ->
  recoveryCode a = recoveryCode u ->
  Good (rest a).
Proof.
  intros Hi Hh Hs Hc. destruct Hrc as [Hen Hvr].
  pose proof Hsup as Hsup'. unfold twoFactorsSupplied in Hsup'.
  unfold verifyFactors, verifyPassword, verifyOtp, verifyRecoveryCode, decide.
  rewrite Hr, Hh, Hs, Hc, Hen. rewrite Hr in Hsup'.
  destruct (truthy (SignInInput.password input)) eqn:Hp;
    destruct (truthy (SignInInput.twoFactorCode input)) eqn:Ho;
    cbn in Hsup'; try discriminate Hsup';
    try (destruct (Hpw eq_refl) as [Hph Hvp]; rewrite Hph);
    try (destruct (Hotp eq_refl) as [Hts Hvo]; rewrite Hts);
    cbn; calls; constructor; reflexivity.
Qed.

(** A request that looked the account up after the code was cleared fails
    with [RecoverySignInDisabled]. *)
Lemma rest_bad (a : Account) :
  id a = id u ->
  passwordHash a = passwordHash u ->
  twoFactorSecret a = twoFactorSecret u ->
  recoveryCode a = None ->
  Bad (rest a).
Proof.
  intros Hi Hh Hs Hc.
  pose proof Hsup as Hsup'. unfold twoFactorsSupplied in Hsup'.
  unfold verifyFactors, verifyPassword, verifyOtp, verifyRecoveryCode, decide.
  rewrite Hr, Hh, Hs, Hc. rewrite Hr in Hsup'.
  destruct (truthy (SignInInput.password input)) eqn:Hp;
    destruct (truthy (SignInInput.twoFactorCode input)) eqn:Ho;
    cbn in Hsup'; try discriminate Hsup';
    try (destruct (Hpw eq_refl) as [Hph Hvp]; rewrite Hph);
    try (destruct (Hotp eq_refl) as [Hts Hvo]; rewrite Hts);
    cbn; calls; constructor; reflexivity.
Qed.

Lemma signIn_is_lookup :
  signInWithPassword input
  = Act (FindFirstByUsername name)
      (fun r => match r with
                | None => Throw AccountNotFound
                | Some a => rest a
                end).
Proof. unfold signInWithPassword. rewrite Hsup. reflexivity. Qed.

(** One turn of a request keeps it at a standing. *)
Lemma request_turn (t : standing) (p : prog Success) (w : world) :
  inv w ->
  at_standing input u (clock w0) t p ->
  (t = SawNoCode -> cleared w) ->
  exists t' : standing,
    t' <> NotLookedUp
    /\ at_standing input u (clock w0) t' (fst (step p w))
    /\ turn name u w (snd (step p w))
    /\ (t' = SawNoCode -> cleared (snd (step p w)))
    /\ (t = SawCode -> t' = SawCode)
    /\ (cleared (snd (step p w)) -> cleared w \/ t' = SawCode)
    /\ (t = NotLookedUp -> stored w -> t' = SawCode)
    /\ (t = NotLookedUp -> cleared w -> t' = SawNoCode).
Proof.
  intros Hw Hat Hbad. destruct t; cbn in Hat.
  - subst p. rewrite signIn_is_lookup. cbn.
    pose proof Hw as [Hck [Hs | Hc]].
    + pose proof Hs as [a [Ha [Hi [Hh [Hts Hcode]]]]]. rewrite Ha.
      exists SawCode. cbn. split; [discriminate |].
      split; [exact (rest_good a Hi Hh Hts Hcode) |].
      split; [apply turn_same_db; [reflexivity | reflexivity | exact Hw] |].
      split; [discriminate |]. split; [auto |]. split; [auto |].
      split; [auto |]. intros _ Hc. exfalso.
      exact (stored_not_cleared w Hs Hc).
    + pose proof Hc as [a [Ha [Hi [Hh [Hts Hcode]]]]]. rewrite Ha.
      exists SawNoCode. cbn. split; [discriminate |].
      split; [exact (rest_bad a Hi Hh Hts Hcode) |].
      split; [apply turn_same_db; [reflexivity | reflexivity | exact Hw] |].
      split; [intros _; exact Hc |].
      split; [discriminate |]. split; [intros _; left; exact Hc |].
      split; [| auto]. intros _ Hs. exfalso.
      exact (stored_not_cleared w Hs Hc).
  - destruct (safe_step _ _ _ turn_refl p w Hat Hw) as [Hsafe Hturn].
    exists SawCode. cbn. split; [discriminate |].
    split; [exact Hsafe |]. split; [exact Hturn |].
    split; [discriminate |]. split; [auto |]. split; [auto |].
    split; discriminate.
  - destruct (safe_step _ _ _ turn_refl p w Hat Hw) as [Hsafe Hturn].
    exists SawNoCode. cbn. split; [discriminate |].
    split; [exact Hsafe |]. split; [exact Hturn |].
    pose proof (Hbad eq_refl) as Hc. destruct Hturn as [_ [_ Hkeep]].
    split; [intros _; exact (Hkeep Hc) |].
    split; [discriminate |]. split; [intros _; left; exact Hc |].
    split; discriminate.
Qed.

(** A request left to run to its end. *)
Lemma request_end (t : standing) (p : prog Success) (w : world) :
  inv w ->
  at_standing input u (clock w0) t p ->
  (t = SawNoCode -> cleared w) ->
  succeededOrNoCode (fst (run p w))
  /\ turn name u w (snd (run p w))
  /\ (t = SawCode -> fst (run p w) = inr success)
  /\ (t = NotLookedUp -> stored w -> fst (run p w) = inr success)
  /\ (t = NotLookedUp -> cleared w ->
      fst (run p w) = inl RecoverySignInDisabled).
Proof.
  intros Hw Hat Hbad.
  destruct (request_turn t p w Hw Hat Hbad)
    as [t' [Hnot [Hat' [Hturn [Hbad' [Hgood [Hclr [Hst Hcl]]]]]]]].
  rewrite <- (run_step p w).
  pose proof (turn_known _ _ Hw Hturn) as Hw'.
  destruct t'; [contradiction | |]; cbn in Hat'.
  - destruct (safe_run _ _ _ turn_refl turn_trans turn_known _ Hat'
                _ Hw') as [Hres Hturn'].
    split; [left; exact Hres |].
    split; [exact (turn_trans _ _ _ Hturn Hturn') |].
    split; [auto |]. split; [auto |].
    intros Ht Hc. specialize (Hcl Ht Hc). discriminate Hcl.
  - destruct (safe_run _ _ _ turn_refl turn_trans turn_known _ Hat'
                _ Hw') as [Hres Hturn'].
    split; [right; exact Hres |].
    split; [exact (turn_trans _ _ _ Hturn Hturn') |].
    split; [| split; [| auto]].
    + intros Ht. specialize (Hgood Ht). discriminate Hgood.
    + intros Ht Hs. specialize (Hst Ht Hs). discriminate Hst.
Qed.

(** Whatever the schedule, each of the two requests ends in success or in
    [RecoverySignInDisabled], and not both fail. *)
Lemma interleave_outcomes (sched : list bool) :
  forall (t1 t2 : standing) (p q : prog Success) (w : world),
    inv w ->
    at_standing input u (clock w0) t1 p ->
    at_standing input u (clock w0) t2 q ->
    (t1 = SawNoCode \/ t2 = SawNoCode -> cleared w) ->
    (cleared w -> t1 = SawCode \/ t2 = SawCode) ->
    let r := fst (interleave sched p q w) in
    succeededOrNoCode (fst r) /\ succeededOrNoCode (snd r)
    /\ (fst r = inr success \/ snd r = inr success).
Proof.
  induction sched as [| b sched IH]; intros t1 t2 p q w Hw H1 H2 Hbad Hclr.
  - rewrite interleave_nil. cbn.
    destruct (request_end t1 p w Hw H1 (fun H => Hbad (or_introl H)))
      as [Hr1 [Hturn1 [Hg1 [Hi1 _]]]].
    pose proof (turn_known _ _ Hw Hturn1) as Hw1.
    assert (Hbad2 : t2 = SawNoCode -> cleared (snd (run p w))).
    { intros H. destruct Hturn1 as [_ [_ Hkeep]].
      exact (Hkeep (Hbad (or_intror H))). }
    destruct (request_end t2 q _ Hw1 H2 Hbad2) as [Hr2 [_ [Hg2 _]]].
    split; [exact Hr1 |]. split; [exact Hr2 |].
    destruct t1.
    + destruct Hw as [_ [Hs | Hc]]; [left; exact (Hi1 eq_refl Hs) |].
      destruct (Hclr Hc) as [H | H]; [discriminate H | right; auto].
    + left. auto.
    + destruct (Hclr (Hbad (or_introl eq_refl))) as [H | H];
        [discriminate H | right; auto].
  - destruct b.
    + destruct (request_turn t1 p w Hw H1 (fun H => Hbad (or_introl H)))
        as [t1' [_ [H1' [Hturn [Hbad' [Hgood [Hclr' _]]]]]]].
      change (interleave (true :: sched) p q w)
        with (let (p', w') := step p w in interleave sched p' q w').
      destruct (step p w) as [p' w']. cbn in H1', Hturn, Hbad', Hclr'.
      apply (IH t1' t2 p' q w').
      * exact (turn_known _ _ Hw Hturn).
      * exact H1'.
      * exact H2.
      * intros [H | H]; [exact (Hbad' H) |].
        destruct Hturn as [_ [_ Hkeep]]. exact (Hkeep (Hbad (or_intror H))).
      * intros Hc. destruct (Hclr' Hc) as [Hc0 | H]; [| left; exact H].
        destruct (Hclr Hc0) as [H | H]; [left; exact (Hgood H) |].
        right. exact H.
    + destruct (request_turn t2 q w Hw H2 (fun H => Hbad (or_intror H)))
        as [t2' [_ [H2' [Hturn [Hbad' [Hgood [Hclr' _]]]]]]].
      change (interleave (false :: sched) p q w)
        with (let (q', w') := step q w in interleave sched p q' w').
      destruct (step q w) as [q' w']. cbn in H2', Hturn, Hbad', Hclr'.
      apply (IH t1 t2' p q' w').
      * exact (turn_known _ _ Hw Hturn).
      * exact H1.
      * exact H2'.
      * intros [H | H]; [| exact (Hbad' H)].
        destruct Hturn as [_ [_ Hkeep]]. exact (Hkeep (Hbad (or_introl H))).
      * intros Hc. destruct (Hclr' Hc) as [Hc0 | H]; [| right; exact H].
        destruct (Hclr Hc0) as [H | H]; [left; exact H |].
        right. exact (Hgood H).
Qed.

(** When both requests look the account up before either clears the code,
    both find it stored and both succeed. *)
Lemma interleave_both_look_up_first :
  find (byUsername name) (db w0) = Some u ->
  fst (interleave [true; false] (signInWithPassword input)
         (signInWithPassword input) w0)
  = (inr success, inr success).
Proof.
  intros Hf. rewrite signIn_is_lookup. cbn. rewrite Hf.
  pose proof (rest_good u eq_refl eq_refl eq_refl eq_refl) as Hgood.
  assert (Hw : inv (log CQuery (log CQuery w0))).
  { split; [reflexivity |]. left. exists u. auto. }
  destruct (safe_run _ _ _ turn_refl turn_trans turn_known _ Hgood _ Hw)
    as [Hres Hturn].
  destruct (run (rest u) (log CQuery (log CQuery w0))) as [r1 w1].
  cbn in Hres, Hturn. subst r1.
  destruct (safe_run _ _ _ turn_refl turn_trans turn_known _ Hgood w1
              (turn_known _ _ Hw Hturn)) as [Hres2 _].
  destruct (run (rest u) w1) as [r2 w2]. cbn in Hres2. subst r2.
  reflexivity.
Qed.

(** C2 (as the code has it): the update that clears a verified recovery
    code is keyed on the account id alone and clears whatever is stored.
    Of two sign-ins in flight that present the same valid recovery code and
    whose other supplied factors are valid, each ends in success or in
    [RecoverySignInDisabled] and at least one succeeds; run one after the
    other, the first succeeds and the second fails with
    [RecoverySignInDisabled]. *)
Theorem signIn_recovery_clear_unconditional :
  find (byUsername name) (db w0) = Some u ->
  let p := signInWithPassword input in
  (forall (d : list Account) (i : Z) (a : Account),
      In a (update (SetRecoveryCode None) i d) ->
      id a = i -> recoveryCode a = None)
  /\ (forall sched : list bool,
         let r := fst (interleave sched p p w0) in
         succeededOrNoCode (fst r) /\ succeededOrNoCode (snd r)
         /\ (fst r = inr success \/ snd r = inr success))
  /\ fst (interleave [] p p w0) = (inr success, inl RecoverySignInDisabled).
Proof.
  intros Hf p.
  assert (Hs : stored w0).
  { exists u. auto. }
  assert (Hw : inv w0).
  { split; [reflexivity | left; exact Hs]. }
  split; [| split].
  - intros d i a Hin Hi. unfold update in Hin. apply in_map_iff in Hin.
    destruct Hin as [b [Hb _]]. unfold byId in Hb.
    destruct (id b =? i) eqn:Hbi.
    + subst a. reflexivity.
    + subst a. apply Z.eqb_neq in Hbi. contradiction.
  - intros sched.
    apply (interleave_outcomes sched NotLookedUp NotLookedUp p p w0).
    + exact Hw.
    + reflexivity.
    + reflexivity.
    + intros [H | H]; discriminate H.
    + intros Hc. exfalso. exact (stored_not_cleared w0 Hs Hc).
  - rewrite interleave_nil.
    destruct (request_end NotLookedUp p w0 Hw eq_refl
                ltac:(discriminate)) as [_ [Hturn [_ [Hfirst _]]]].
    specialize (Hfirst eq_refl Hs).
    destruct (run p w0) as [r1 w1] eqn:Hrun. cbn in Hfirst, Hturn |- *.
    subst r1.
    pose proof (signIn_success_clears_code input w0 w1 u Hf Hr Hrun) as Hf1.
    assert (Hc1 : cleared w1).
    { eexists. split; [exact Hf1 |]. cbn. auto. }
    destruct (request_end NotLookedUp p w1 (turn_known _ _ Hw Hturn) eq_refl
                ltac:(discriminate)) as [_ [_ [_ [_ Hsecond]]]].
    rewrite (Hsecond eq_refl Hc1). reflexivity.
Qed.

End TwoSignIns.

(** ** The theorems at work on the sample world *)

Section Instances.
Import Scenario.
Local Existing Instance Fake.sound.

Lemma signIn_three_factors_one_wrong_witness :
  fst (run (signInWithPassword threeFactorsOneWrong) Fake.world0)
  = inl InvalidOtp
  /\ db (snd (run (signInWithPassword threeFactorsOneWrong) Fake.world0))
     = db Fake.world0.
Proof.
  destruct (signIn_three_factors_one_wrong (E := Fake.sound)
              threeFactorsOneWrong Fake.world0
              Fake.alice eq_refl eq_refl eq_refl eq_refl eq_refl eq_refl
              eq_refl eq_refl) as [H1 [H2 _]].
  split; [exact H1 | exact H2].
Defined.

(** With all three factors supplied and exactly two of the three
    verifications valid, sign-in does not succeed. *)
Lemma signIn_two_valid_of_three_counterexample :
  validOutcomes
    (argon2id_verify (str (passwordHash Fake.alice))
       (str (SignInInput.password threeFactorsOneWrong)))
    (totp_verify (clock Fake.world0)
       (str (SignInInput.twoFactorCode threeFactorsOneWrong))
       (decodeHex (str (twoFactorSecret Fake.alice))))
    (argon2id_verify (str (recoveryCode Fake.alice))
       (str (SignInInput.recoveryCode threeFactorsOneWrong)))
  = 2%nat
  /\ find (byUsername "alice") (db Fake.world0) = Some Fake.alice
  /\ fst (run (signInWithPassword threeFactorsOneWrong) Fake.world0)
     = inl InvalidOtp
  /\ fst (run (signInWithPassword threeFactorsOneWrong) Fake.world0)
     <> inr success.
Proof.
  split; [reflexivity |]. split; [reflexivity |].
  split; [reflexivity | discriminate].
Qed.

Lemma signIn_recovery_clear_unconditional_witness :
  fst (interleave [] (signInWithPassword allThree)
         (signInWithPassword allThree) Fake.world0)
  = (inr success, inl RecoverySignInDisabled)
  /\ succeededOrNoCode
       (snd (fst (interleave [false; true; true; false; true]
                    (signInWithPassword allThree)
                    (signInWithPassword allThree) Fake.world0))).
Proof.
  destruct (signIn_recovery_clear_unconditional (E := Fake.sound)
              allThree Fake.alice Fake.world0 eq_refl eq_refl
              (fun _ => conj eq_refl eq_refl)
              (fun _ => conj eq_refl eq_refl)
              (conj eq_refl eq_refl) eq_refl) as [_ [H1 H2]].
  split; [exact H2 |].
  exact (proj1 (proj2 (H1 [false; true; true; false; true]))).
Defined.

(** Two sign-ins with the same valid password and recovery code, both
    looking the account up before either clears the code: both succeed, and
    two sessions are created. *)
Lemma signIn_concurrent_reuse_counterexample :
  let p := signInWithPassword passwordAndCode in
  let r := interleave [true; false] p p Fake.world0 in
  fst r = (inr success, inr success)
  /\ length (sessions (snd r)) = (length (sessions Fake.world0) + 2)%nat
  /\ fst (fst r) <> inl InvalidRecoveryCode
  /\ snd (fst r) <> inl InvalidRecoveryCode.
Proof.
  cbv zeta. split; [reflexivity |]. split; [reflexivity |].
  split; discriminate.
Qed.

Lemma signIn_recovery_code_single_use_witness :
  exists w1 : world,
    run (signInWithPassword passwordAndCode) Fake.world0 = (inr success, w1)
    /\ (exists u1 : Account,
           find (byUsername "alice") (db w1) = Some u1
           /\ recoveryCode u1 = None)
    /\ fst (run (signInWithPassword passwordAndCode) w1)
       = inl RecoverySignInDisabled.
Proof.
  destruct (signIn_recovery_code_single_use (E := Fake.sound)
              passwordAndCode Fake.world0 Fake.alice eq_refl eq_refl)
    as [H1 H2].
  destruct (H2 eq_refl eq_refl eq_refl eq_refl eq_refl eq_refl)
    as [w1 [Hrun Hagain]].
  exists w1. split; [exact Hrun |].
  split; [exact (H1 w1 Hrun) | exact (Hagain w1 eq_refl)].
Defined.

(** Scenario 3: the second attempt with the same recovery code and the
    correct password fails, but not with [InvalidRecoveryCode]. *)
Lemma signIn_reuse_error_counterexample :
  let p := signInWithPassword passwordAndCode in
  fst (run p Fake.world0) = inr success
  /\ fst (run p (snd (run p Fake.world0))) = inl RecoverySignInDisabled
  /\ fst (run p (snd (run p Fake.world0))) <> inl InvalidRecoveryCode.
Proof.
  cbv zeta. split; [reflexivity |]. split; [reflexivity | discriminate].
Qed.

Lemma signIn_password_disabled_witness :
  run (signInWithPassword bobWithPassword) Fake.world0
  = (inl PasswordSignInDisabled, log CQuery Fake.world0).
Proof.
  exact (proj1 (signIn_password_disabled (E := Fake.sound)
                  bobWithPassword Fake.world0
                  Fake.bob eq_refl eq_refl eq_refl eq_refl)).
Defined.

Lemma signIn_insufficient_factors_witness :
  run (signInWithPassword passwordOnly) Fake.world0
  = (inl InsufficientFactors, Fake.world0).
Proof.
  apply (signIn_insufficient_factors (E := Fake.sound) passwordOnly). cbn. lia.
Defined.

Lemma signIn_generic_failure_unreachable_witness :
  fst (run (signInWithPassword threeFactorsOneWrong) Fake.world0)
  <> inl AuthenticationFailed.
Proof.
  exact (proj1 (proj2 (signIn_generic_failure_unreachable (E := Fake.sound)
                         threeFactorsOneWrong Fake.world0 Fake.alice
                         eq_refl eq_refl))).
Defined.

Lemma signIn_error_leaves_accounts_witness :
  db (snd (run (signInWithPassword threeFactorsOneWrong) Fake.world0))
  = db Fake.world0.
Proof.
  exact (proj1 (signIn_error_leaves_accounts (E := Fake.sound)
                  threeFactorsOneWrong
                  Fake.world0 _ InvalidOtp eq_refl)).
Defined.

Lemma updateUserPassword_requires_otp_witness :
  fst (run (updateUserPassword 3 rotateCarol) Fake.world0)
  = inl TwoFactorNotEnabled
  /\ fst (run (updateUserPassword 1 rotateAliceWrongOtp) Fake.world0)
     = inl InvalidOtp
  /\ find (byId 1)
       (db (snd (run (updateUserPassword 1 rotateAliceWrongOtp)
                   Fake.world0)))
     = Some Fake.alice
  /\ sessions (snd (run (updateUserPassword 1 rotateAliceWrongOtp)
                      Fake.world0))
     = sessions Fake.world0.
Proof.
  destruct (updateUserPassword_requires_otp (E := Fake.sound) 3 rotateCarol
              Fake.world0
              Fake.carol eq_refl eq_refl eq_refl) as [H1 _].
  destruct (updateUserPassword_requires_otp (E := Fake.sound) 1
              rotateAliceWrongOtp
              Fake.world0 Fake.alice eq_refl eq_refl eq_refl)
    as [_ [H2 H3]].
  destruct (H3 (or_intror eq_refl)) as [_ [H4 [H5 _]]].
  split; [exact (H1 eq_refl) |]. split; [exact (H2 eq_refl eq_refl) |].
  split; [exact H4 | exact H5].
Defined.

Lemma updateUserPassword_invalidates_before_issuing_witness :
  exists w' : world,
    run (updateUserPassword 1 rotateAlice) Fake.world0 = (inr success, w')
    /\ sessions w'
       = [mkSession 1 3 "carol" "account_2";
          mkSession 3 1 "alice" "account_0"].
Proof.
  destruct (updateUserPassword_invalidates_before_issuing (E := Fake.sound)
              1 rotateAlice
              Fake.world0 Fake.alice "$argon2id$N3w!Passw0rd"
              eq_refl eq_refl eq_refl eq_refl eq_refl eq_refl eq_refl)
    as [w' [H1 [H2 _]]].
  exists w'. split; [exact H1 | exact H2].
Defined.

End Instances.

Section FailingSignUps.
Import Scenario.

Lemma signUp_atomic_witness :
  let r := @run Fake.lenient _ (signUpWithPassword signUpAlice)
             Fake.world0 in
  fst r = inl DuplicateEntry
  /\ db (snd r) = db Fake.world0
  /\ sessions (snd r) = sessions Fake.world0
  /\ console (snd r) = [DuplicateEntry].
Proof.
  cbv zeta.
  destruct (@signUp_atomic Fake.lenient signUpAlice Fake.world0
              (snd (@run Fake.lenient _
                      (signUpWithPassword signUpAlice)
                      Fake.world0))
              DuplicateEntry eq_refl) as [[H1 [H2 _]] H3].
  destruct (H3 eq_refl) as [H4 _].
  split; [reflexivity |]. split; [exact H1 |]. split; [exact H2 | exact H4].
Defined.

(** The validator turns the username down. *)
Example signUp_username_taken :
  let r := @run Fake.sound _ (signUpWithPassword signUpAlice)
             Fake.world0 in
  fst r = inl (UsernameUnavailable (Some "Already taken"))
  /\ db (snd r) = db Fake.world0
  /\ console (snd r) = [UsernameUnavailable (Some "Already taken")].
Proof. cbv zeta. repeat split. Qed.

(** The hasher raises. *)
Example signUp_hash_fails :
  let r := @run Fake.outOfMemory _
             (signUpWithPassword
                (SignUpInput.mk "dave" "Str0ng!Passw0rd"))
             Fake.world0 in
  fst r = inl (LibError "out of memory")
  /\ db (snd r) = db Fake.world0
  /\ sessions (snd r) = sessions Fake.world0
  /\ console (snd r) = [LibError "out of memory"].
Proof. cbv zeta. repeat split. Qed.

(** Scenario 1: a sign-up on an empty store. *)
Example signUp_alice :
  let r := @run Fake.sound _ (signUpWithPassword signUpAlice)
             Fake.emptyWorld in
  fst r = inr success
  /\ db (snd r)
     = [mkAccount 1 "account_1" "alice" (Some "$argon2id$Str0ng!Passw0rd")
          None None (Some 1700000000)]
  /\ sessions (snd r) = [mkSession 0 1 "alice" "account_1"]
  /\ cookies (snd r) = [Fake.cookie 0].
Proof. cbv zeta. repeat split. Qed.

End FailingSignUps.

(** ** More facts about the store *)

Lemma map_identity_update (s : AccountPatch) (i : Z) (d : list Account) :
  map identity (update s i d) = map identity d.
Proof.
  unfold update. rewrite map_map. apply map_ext. intros a.
  destruct (byId i a); [destruct s |]; reflexivity.
Qed.

Lemma map_username_update (s : AccountPatch) (i : Z) (d : list Account) :
  map username (update s i d) = map username d.
Proof.
  unfold update. rewrite map_map. apply map_ext. intros a.
  destruct (byId i a); [destruct s |]; reflexivity.
Qed.

Lemma map_id_update (s : AccountPatch) (i : Z) (d : list Account) :
  map id (update s i d) = map id d.
Proof.
  unfold update. rewrite map_map. apply map_ext. intros a.
  destruct (byId i a); [destruct s |]; reflexivity.
Qed.

Lemma map_credentials_clear (v : jsstring) (i : Z) (d : list Account) :
  map credentials (update (SetRecoveryCode v) i d) = map credentials d.
Proof.
  unfold update. rewrite map_map. apply map_ext. intros a.
  destruct (byId i a); reflexivity.
Qed.

Lemma map_credentials_login (t i : Z) (d : list Account) :
  map credentials (update (SetLastLoginAt t) i d) = map credentials d.
Proof.
  unfold update. rewrite map_map. apply map_ext. intros a.
  destruct (byId i a); reflexivity.
Qed.

(** An update by id leaves the rows of every other id where and as they
    were. *)
Lemma nth_error_update_other (s : AccountPatch) (i : Z) (d : list Account)
  (n : nat) (a : Account) :
  nth_error d n = Some a -> id a <> i ->
  nth_error (update s i d) n = Some a.
Proof.
  intros Hn Hi. unfold update. rewrite nth_error_map, Hn. cbn.
  unfold byId. apply Z.eqb_neq in Hi. rewrite Hi. reflexivity.
Qed.

(** An update by id rewrites the rows of that id, each in its place. *)
Lemma nth_error_update_same (s : AccountPatch) (i : Z) (d : list Account)
  (n : nat) (a : Account) :
  nth_error d n = Some a -> id a = i ->
  nth_error (update s i d) n = Some (patch s a).
Proof.
  intros Hn Hi. unfold update. rewrite nth_error_map, Hn. cbn.
  unfold byId. rewrite Hi, Z.eqb_refl. reflexivity.
Qed.

Lemma update_length (s : AccountPatch) (i : Z) (d : list Account) :
  length (update s i d) = length d.
Proof. unfold update. apply length_map. Qed.

Lemma Forall_update (P : Account -> Prop) (s : AccountPatch) (i : Z)
  (d : list Account) :
  (forall a, P a -> P (patch s a)) ->
  Forall P d -> Forall P (update s i d).
Proof.
  intros Hp H. unfold update. apply Forall_map.
  apply (Forall_impl _ (P := P)); [| exact H].
  intros a Ha. destruct (byId i a); auto.
Qed.

(** A lookup by id that finds a row finds one of that id. *)
Lemma find_byId_id (i : Z) (d : list Account) (a : Account) :
  find (byId i) d = Some a -> id a = i.
Proof.
  intros H. apply find_some in H. destruct H as [_ H].
  unfold byId in H. apply Z.eqb_eq in H. exact H.
Qed.

(** Where ids are not repeated, a lookup by the id of a row of the table
    finds that row. *)
Lemma find_byId_In (d : list Account) (a : Account) :
  NoDup (map id d) ->
  In a d -> find (byId (id a)) d = Some a.
Proof.
  induction d as [| b d IH]; intros Hnd Hin; [contradiction |].
  cbn in Hnd. inversion Hnd as [| x l Hnotin Hnd']; subst.
  cbn. unfold byId at 1. destruct (id b =? id a) eqn:Hb.
  - destruct Hin as [-> | Hin]; [reflexivity |].
    exfalso. apply Hnotin. apply Z.eqb_eq in Hb. rewrite Hb.
    apply in_map. exact Hin.
  - destruct Hin as [-> | Hin]; [rewrite Z.eqb_refl in Hb; discriminate |].
    apply IH; assumption.
Qed.

Lemma existsb_byUsername (n : string) (d : list Account) :
  existsb (byUsername n) d = true <-> In n (map username d).
Proof.
  rewrite existsb_exists. split.
  - intros [a [Hin Hb]]. unfold byUsername in Hb.
    apply String.eqb_eq in Hb. subst n. apply in_map. exact Hin.
  - intros Hin. apply in_map_iff in Hin. destruct Hin as [a [Hn Hin]].
    exists a. split; [exact Hin |]. unfold byUsername.
    apply String.eqb_eq. exact Hn.
Qed.

(** A row appended under a username the table does not hold is the one a
    lookup by that username finds. *)
Lemma find_byUsername_app_new (d : list Account) (a : Account) :
  existsb (byUsername (username a)) d = false ->
  find (byUsername (username a)) (d ++ [a]) = Some a.
Proof.
  induction d as [| b d IH]; cbn.
  - intros _. unfold byUsername. rewrite String.eqb_refl. reflexivity.
  - destruct (byUsername (username a) b); cbn; [discriminate | exact IH].
Qed.

(** An update by an id no row has changes nothing. *)
Lemma update_fresh (s : AccountPatch) (i : Z) (d : list Account) :
  Forall (fun a => id a < i) d -> update s i d = d.
Proof.
  intros H. unfold update. rewrite <- (map_id d) at 2.
  apply map_ext_in. intros a Hin.
  rewrite Forall_forall in H. specialize (H a Hin).
  unfold byId. destruct (id a =? i) eqn:Hi; [| reflexivity].
  apply Z.eqb_eq in Hi. lia.
Qed.

Lemma update_app (s : AccountPatch) (i : Z) (d1 d2 : list Account) :
  update s i (d1 ++ d2) = (update s i d1 ++ update s i d2)%list.
Proof. unfold update. apply map_app. Qed.

Lemma NoDup_snoc {A : Type} (l : list A) (a : A) :
  NoDup l -> ~ In a l -> NoDup (l ++ [a]).
Proof.
  intros Hl Ha. pose proof (Add_app a l []) as Hadd.
  rewrite app_nil_r in Hadd.
  apply (NoDup_Add Hadd). split; assumption.
Qed.

(** Whole numbers below [2^53] are doubles. *)
Lemma Number_exact (x : Z) : Z.abs x < 2 ^ 53 -> Number x = x.
Proof.
  intros H. unfold Number.
  destruct (Z.ltb_spec (Z.abs x) (2 ^ 53)); [reflexivity | lia].
Qed.

(** ** More on sign-in *)

Section MoreSignIn.
Context {E : Collaborators}.

(** X1: A sign-in succeeds exactly when it supplies two factors and every
    factor it supplies is enrolled on the account found and verifies (the
    one-time code at the time of the request). A factor that is not supplied
    is not looked at. *)
Theorem signIn_succeeds_iff (input : SignInInput.t) (w : world)
  (u : Account) :
  find (byUsername (SignInInput.username input)) (db w) = Some u ->
  fst (run (signInWithPassword input) w) = inr success
  <-> twoFactorsSupplied input = true
      /\ (truthy (SignInInput.password input) = true ->
          passwordValid input u)
      /\ (truthy (SignInInput.twoFactorCode input) = true ->
          otpValid input u (clock w))
      /\ (truthy (SignInInput.recoveryCode input) = true ->
          recoveryCodeValid input u).
Proof.
  intros Hf. unfold passwordValid, otpValid, recoveryCodeValid.
  destruct (twoFactorsSupplied input) eqn:Hs.
  - rewrite (run_signIn_found input w u Hs Hf).
    unfold verifyFactors, verifyPassword, verifyOtp, verifyRecoveryCode,
      decide.
    split_factors input Hs; symex;
      (split; [intros H; try discriminate H; intuition congruence
              | intros [_ [H1 [H2 H3]]]; try reflexivity;
                exfalso; intuition congruence]).
  - rewrite (signIn_guard input w Hs). cbn.
    split; [discriminate | intros [H _]; discriminate H].
Qed.

(** X2: What a successful sign-in writes: the login time on the account, the
    recovery code cleared when (and only when) one was supplied, one new
    session for the account after the existing ones, and its cookie. *)
Theorem signIn_success_effects (input : SignInInput.t) (w w' : world)
  (u : Account) :
  find (byUsername (SignInInput.username input)) (db w) = Some u ->
  run (signInWithPassword input) w = (inr success, w') ->
  db w'
  = update (SetLastLoginAt (clock w)) (id u)
      (if truthy (SignInInput.recoveryCode input)
       then update (SetRecoveryCode None) (id u) (db w)
       else db w)
  /\ sessions w'
     = (sessions w
        ++ [mkSession (nextSessionId w) (id u) (username u) (publicId u)])%list
  /\ cookies w' = (cookies w ++ [createSessionCookie (nextSessionId w)])%list
  /\ nextSessionId w' = (nextSessionId w + 1)%N
  /\ console w' = console w.
Proof.
  intros Hf.
  destruct (twoFactorsSupplied input) eqn:Hs.
  - rewrite (run_signIn_found input w u Hs Hf).
    unfold verifyFactors, verifyPassword, verifyOtp, verifyRecoveryCode,
      decide.
    split_factors input Hs; symex; intros H; inversion H; subst; cbn;
      repeat split; reflexivity.
  - rewrite (signIn_guard input w Hs). discriminate.
Qed.

Lemma signIn_not_found (input : SignInInput.t) (w : world) :
  twoFactorsSupplied input = true ->
  find (byUsername (SignInInput.username input)) (db w) = None ->
  run (signInWithPassword input) w = (inl AccountNotFound, log CQuery w).
Proof.
  intros Hs Hf. unfold signInWithPassword. rewrite Hs. cbn. rewrite Hf.
  reflexivity.
Qed.

(** The account table after any run of sign-in is the table before, or the
    table with the login time set on the account found, after the recovery
    code was cleared or not. *)
Lemma signIn_db_cases (input : SignInInput.t) (w : world) :
  db (snd (run (signInWithPassword input) w)) = db w
  \/ exists (u : Account) (d : list Account),
      find (byUsername (SignInInput.username input)) (db w) = Some u
      /\ (d = db w \/ d = update (SetRecoveryCode None) (id u) (db w))
      /\ db (snd (run (signInWithPassword input) w))
         = update (SetLastLoginAt (clock w)) (id u) d.
Proof.
  destruct (twoFactorsSupplied input) eqn:Hs.
  - destruct (find (byUsername (SignInInput.username input)) (db w))
      as [u |] eqn:Hf.
    + rewrite (run_signIn_found input w u Hs Hf).
      unfold verifyFactors, verifyPassword, verifyOtp, verifyRecoveryCode,
        decide.
      split_factors input Hs; symex;
        solve [ left; reflexivity
              | right; eexists; eexists; split; [reflexivity |];
                split; [| reflexivity]; auto ].
    + rewrite (signIn_not_found input w Hs Hf). left. reflexivity.
  - rewrite (signIn_guard input w Hs). left. reflexivity.
Qed.

(** X3: A sign-in for a username the table does not hold never gets to
    verify a factor: it ends in [InsufficientFactors] without a call, or in
    [AccountNotFound] right after the lookup, and writes nothing. *)
Theorem signIn_unknown_username (input : SignInInput.t) (w : world) :
  find (byUsername (SignInInput.username input)) (db w) = None ->
  run (signInWithPassword input) w
  = (if twoFactorsSupplied input
     then (inl AccountNotFound, log CQuery w)
     else (inl InsufficientFactors, w)).
Proof.
  intros Hf. destruct (twoFactorsSupplied input) eqn:Hs.
  - exact (signIn_not_found input w Hs Hf).
  - exact (signIn_guard input w Hs).
Qed.

(** X4: No run of sign-in, whatever its outcome, changes the id, public id,
    username, password hash or second factor secret of any row, adds or
    removes a row, or touches a row of another id than the account found. *)
Theorem signIn_frame (input : SignInInput.t) (w : world) :
  let w' := snd (run (signInWithPassword input) w) in
  map credentials (db w') = map credentials (db w)
  /\ (forall (u : Account) (n : nat) (a : Account),
         find (byUsername (SignInInput.username input)) (db w) = Some u ->
         nth_error (db w) n = Some a -> id a <> id u ->
         nth_error (db w') n = Some a)
  /\ (find (byUsername (SignInInput.username input)) (db w) = None ->
      db w' = db w).
Proof.
  cbv zeta.
  destruct (signIn_db_cases input w) as [H | [u [d [Hf [Hd H]]]]];
    rewrite H.
  - split; [reflexivity |]. split; [auto | auto].
  - split; [| split].
    + rewrite map_credentials_login.
      destruct Hd as [-> | ->]; [reflexivity | apply map_credentials_clear].
    + intros u' n a Hf' Hn Hi. rewrite Hf in Hf'. injection Hf' as <-.
      apply nth_error_update_other; [| exact Hi].
      destruct Hd as [-> | ->]; [exact Hn |].
      apply nth_error_update_other; assumption.
    + intros Hnone. rewrite Hnone in Hf. discriminate Hf.
Qed.

End MoreSignIn.

(** ** More on password rotation *)

Section MoreRotation.
Context {E : Collaborators}.

Lemma map_exceptPassword_update (h : string) (i : Z) (d : list Account) :
  map exceptPassword (update (SetPasswordHash h) i d) = map exceptPassword d.
Proof.
  unfold update. rewrite map_map. apply map_ext. intros a.
  destruct (byId i a); reflexivity.
Qed.

(** The account table after any run of the rotation is the table before, or
    the table with the new hash on the rows of the account id. *)
Lemma updateUserPassword_db_cases (accountId : Z)
  (input : UpdatePasswordInput.t) (w : world) :
  db (snd (run (updateUserPassword accountId input) w)) = db w
  \/ exists h : string,
      argon2id_hash (entropy w) (UpdatePasswordInput.newPassword input)
      = inr h
      /\ fst (run (updateUserPassword accountId input) w) = inr success
      /\ db (snd (run (updateUserPassword accountId input) w))
         = update (SetPasswordHash h) accountId (db w).
Proof.
  unfold updateUserPassword. cbn.
  destruct (find (byId accountId) (db w)) as [u |]; cbn;
    [| left; reflexivity].
  symex; try (left; reflexivity);
    (destruct (argon2id_hash (entropy w)
                 (UpdatePasswordInput.newPassword input)) as [e | h] eqn:Hh;
     cbn; [left; reflexivity |]);
    right; exists h; repeat split; reflexivity.
Qed.

(** X5: A rotation goes through exactly when the account has a password hash
    that the old password verifies against, has a second factor secret that
    the one-time code verifies against, and the new password hashes. *)
Theorem updateUserPassword_succeeds_iff (accountId : Z)
  (input : UpdatePasswordInput.t) (w : world) (u : Account) :
  find (byId accountId) (db w) = Some u ->
  fst (run (updateUserPassword accountId input) w) = inr success
  <-> truthy (passwordHash u) = true
      /\ argon2id_verify (str (passwordHash u))
           (UpdatePasswordInput.oldPassword input) = true
      /\ truthy (twoFactorSecret u) = true
      /\ totp_verify (clock w) (UpdatePasswordInput.otp input)
           (decodeHex (str (twoFactorSecret u))) = true
      /\ exists h : string,
          argon2id_hash (entropy w) (UpdatePasswordInput.newPassword input)
          = inr h.
Proof.
  intros Hf. unfold updateUserPassword. cbn. rewrite Hf. cbn.
  symex;
    try (split; [intros H; discriminate H
                | intros [H1 [H2 [H3 [H4 _]]]]; congruence]);
    (destruct (argon2id_hash (entropy w)
                 (UpdatePasswordInput.newPassword input)) as [e | h] eqn:Hh;
     cbn;
     [ split; [intros H; discriminate H |];
       intros [_ [_ [_ [_ [h H]]]]]; discriminate H
     | (split; [intros _ | reflexivity]); repeat split; eauto ]).
Qed.

(** X6: What a rotation that goes through writes: the new hash on the
    account, one new session for it, after the existing sessions when
    [invalidateAllSessions] is off and after the sessions of the other
    accounts when it is on, and the cookie of the new session. *)
Theorem updateUserPassword_success_effects (accountId : Z)
  (input : UpdatePasswordInput.t) (w w' : world) (u : Account) :
  find (byId accountId) (db w) = Some u ->
  run (updateUserPassword accountId input) w = (inr success, w') ->
  exists h : string,
    argon2id_hash (entropy w) (UpdatePasswordInput.newPassword input)
    = inr h
    /\ db w' = update (SetPasswordHash h) accountId (db w)
    /\ sessions w'
       = ((if UpdatePasswordInput.invalidateAllSessions input
           then invalidate accountId (sessions w)
           else sessions w)
          ++ [mkSession (nextSessionId w) accountId (username u)
                (publicId u)])%list
    /\ cookies w'
       = (cookies w ++ [createSessionCookie (nextSessionId w)])%list.
Proof.
  intros Hf. unfold updateUserPassword. cbn. rewrite Hf. cbn.
  symex; try (intros H; discriminate H);
    (destruct (argon2id_hash (entropy w)
                 (UpdatePasswordInput.newPassword input)) as [e | h] eqn:Hh;
     cbn; [intros H; discriminate H |]);
    intros H; inversion H; subst; cbn; exists h; repeat split; reflexivity.
Qed.

(** When every call but the hashing answers, a rotation that throws leaves
    the account table, the sessions and the cookies as they were. *)
Theorem updateUserPassword_error_leaves_world (accountId : Z)
  (input : UpdatePasswordInput.t) (w w' : world) (e : error) :
  run (updateUserPassword accountId input) w = (inl e, w') ->
  db w' = db w /\ sessions w' = sessions w /\ cookies w' = cookies w.
Proof.
  unfold updateUserPassword. cbn.
  destruct (find (byId accountId) (db w)) as [u |]; cbn.
  - symex; try (intros H; inversion H; subst; cbn; auto; fail);
      (destruct (argon2id_hash (entropy w)
                   (UpdatePasswordInput.newPassword input)) as [e1 | h];
       cbn; intros H; [inversion H; subst; cbn; auto | discriminate H]).
  - intros H; inversion H; subst; cbn; auto.
Qed.

(** X8: The old password is the first gate of a rotation: an unknown id ends
    in [AccountNotFound], an account without password hash in
    [PasswordSignInDisabled] and a wrong old password in
    [IncorrectOldPassword]; in all three the one-time code is not verified
    (the calls made are the lookup and at most the password check), whether
    it is right or wrong. *)
Theorem updateUserPassword_old_password_gate (accountId : Z)
  (input : UpdatePasswordInput.t) (w : world) :
  (find (byId accountId) (db w) = None ->
   run (updateUserPassword accountId input) w
   = (inl AccountNotFound, log CQuery w))
  /\ (forall u : Account,
         find (byId accountId) (db w) = Some u ->
         truthy (passwordHash u) = false ->
         run (updateUserPassword accountId input) w
         = (inl PasswordSignInDisabled, log CQuery w))
  /\ (forall u : Account,
         find (byId accountId) (db w) = Some u ->
         truthy (passwordHash u) = true ->
         argon2id_verify (str (passwordHash u))
           (UpdatePasswordInput.oldPassword input) = false ->
         run (updateUserPassword accountId input) w
         = (inl IncorrectOldPassword, log CVerify (log CQuery w))).
Proof.
  unfold updateUserPassword. cbn. split; [| split].
  - intros Hf. rewrite Hf. reflexivity.
  - intros u Hf Hh. rewrite Hf. cbn. rewrite Hh. reflexivity.
  - intros u Hf Hh Hv. rewrite Hf. cbn. rewrite Hh. cbn. rewrite Hv.
    reflexivity.
Qed.

(** X9: No run of the rotation, whatever its outcome, changes anything but
    the password hash of the rows of the account id: every other column of
    every row, and every row of another id, is as before. *)
Theorem updateUserPassword_frame (accountId : Z)
  (input : UpdatePasswordInput.t) (w : world) :
  let w' := snd (run (updateUserPassword accountId input) w) in
  map exceptPassword (db w') = map exceptPassword (db w)
  /\ forall (n : nat) (a : Account),
      nth_error (db w) n = Some a -> id a <> accountId ->
      nth_error (db w') n = Some a.
Proof.
  cbv zeta.
  destruct (updateUserPassword_db_cases accountId input w)
    as [H | [h [_ [_ H]]]]; rewrite H.
  - split; [reflexivity | auto].
  - split; [apply map_exceptPassword_update |].
    intros n a Hn Hi. apply nth_error_update_other; assumption.
Qed.

(** X10: Rotation and sign-in fit together: after a rotation that went
    through, where the new hash verifies the new password, a sign-in with
    the new password and the same one-time code succeeds; and where the new
    hash does not verify the old password, a sign-in with the old password
    ends in [InvalidCredentials]. *)
Theorem updateUserPassword_then_signIn (accountId : Z)
  (input : UpdatePasswordInput.t) (w w1 : world) (u : Account) (h : string) :
  find (byId accountId) (db w) = Some u ->
  find (byUsername (username u)) (db w) = Some u ->
  run (updateUserPassword accountId input) w = (inr success, w1) ->
  argon2id_hash (entropy w) (UpdatePasswordInput.newPassword input)
  = inr h ->
  truthy (Some h) = true ->
  truthy (Some (UpdatePasswordInput.otp input)) = true ->
  (truthy (Some (UpdatePasswordInput.newPassword input)) = true ->
   argon2id_verify h (UpdatePasswordInput.newPassword input) = true ->
   fst (run (signInWithPassword
               (passwordAndOtp (username u)
                  (UpdatePasswordInput.newPassword input)
                  (UpdatePasswordInput.otp input))) w1)
   = inr success)
  /\ (truthy (Some (UpdatePasswordInput.oldPassword input)) = true ->
      argon2id_verify h (UpdatePasswordInput.oldPassword input) = false ->
      fst (run (signInWithPassword
                  (passwordAndOtp (username u)
                     (UpdatePasswordInput.oldPassword input)
                     (UpdatePasswordInput.otp input))) w1)
      = inl InvalidCredentials).
Proof.
  intros Hf Hfu Hrun Hh Hth Hto.
  pose proof (find_byId_id _ _ _ Hf) as Hid.
  assert (Hw1 : db w1 = update (SetPasswordHash h) accountId (db w)
                /\ clock w1 = clock w
                /\ truthy (twoFactorSecret u) = true
                /\ totp_verify (clock w) (UpdatePasswordInput.otp input)
                     (decodeHex (str (twoFactorSecret u))) = true).
  { revert Hrun. unfold updateUserPassword. cbn. rewrite Hf. cbn.
    symex; try (intros H; discriminate H);
      rewrite Hh; cbn; intros H; inversion H; subst; cbn; auto. }
  destruct Hw1 as [Hdb [Hck [Hts Hvo]]].
  assert (Hf1 : find (byUsername (username u)) (db w1)
                = Some (patch (SetPasswordHash h) u)).
  { rewrite Hdb, find_byUsername_update, Hfu. cbn. unfold byId.
    rewrite Hid, Z.eqb_refl. reflexivity. }
  split.
  - intros Htn Hvn.
    assert (Hs : twoFactorsSupplied
                   (passwordAndOtp (username u)
                      (UpdatePasswordInput.newPassword input)
                      (UpdatePasswordInput.otp input)) = true).
    { unfold twoFactorsSupplied, passwordAndOtp. cbn. rewrite Htn, Hto.
      reflexivity. }
    rewrite (run_signIn_found _ w1 _ Hs Hf1).
    unfold verifyFactors, verifyPassword, verifyOtp, verifyRecoveryCode,
      decide, passwordAndOtp.
    change (truthy None) with false.
    cbn. rewrite Htn, Hto. cbn. rewrite Hth. cbn.
    change (str (Some h)) with h.
    change (str (Some (UpdatePasswordInput.newPassword input)))
      with (UpdatePasswordInput.newPassword input).
    rewrite Hvn. cbn. rewrite Hts. cbn.
    change (str (Some (UpdatePasswordInput.otp input)))
      with (UpdatePasswordInput.otp input).
    rewrite Hck, Hvo. reflexivity.
  - intros Hto' Hvo'.
    assert (Hs : twoFactorsSupplied
                   (passwordAndOtp (username u)
                      (UpdatePasswordInput.oldPassword input)
                      (UpdatePasswordInput.otp input)) = true).
    { unfold twoFactorsSupplied, passwordAndOtp. cbn. rewrite Hto', Hto.
      reflexivity. }
    rewrite (run_signIn_found _ w1 _ Hs Hf1).
    unfold verifyFactors, verifyPassword, passwordAndOtp.
    cbn. rewrite Hto'. cbn. rewrite Hth. cbn.
    change (str (Some h)) with h.
    change (str (Some (UpdatePasswordInput.oldPassword input)))
      with (UpdatePasswordInput.oldPassword input).
    rewrite Hvo'. reflexivity.
Qed.

(** X21: A rotation request that leaves [invalidateAllSessions] out logs
    nobody out: when it goes through, every session that existed is still
    there, in place, and the new session comes after them. *)
Theorem updateUserPassword_default_keeps_sessions (accountId : Z)
  (r : UpdatePasswordRequest.t) (w w' : world) (u : Account) :
  UpdatePasswordRequest.invalidateAllSessions r = None ->
  find (byId accountId) (db w) = Some u ->
  run (updateUserPassword accountId (UpdatePasswordRequest.withDefault r)) w
  = (inr success, w') ->
  sessions w'
  = (sessions w
     ++ [mkSession (nextSessionId w) accountId (username u) (publicId u)])%list
  /\ forall (n : nat) (s : Session),
      nth_error (sessions w) n = Some s -> nth_error (sessions w') n = Some s.
Proof.
  intros Hnone Hf. unfold UpdatePasswordRequest.withDefault. rewrite Hnone.
  unfold updateUserPassword. cbn. rewrite Hf. cbn.
  symex; try (intros H; discriminate H);
    (destruct (argon2id_hash (entropy w)
                 (UpdatePasswordRequest.newPassword r)) as [e | h] eqn:Hh;
     cbn; [intros H; discriminate H |]);
    intros H; inversion H; subst; cbn; (split; [reflexivity |]);
    intros n s Hn; rewrite nth_error_app1;
    [exact Hn | apply nth_error_Some; rewrite Hn; discriminate].
Qed.

End MoreRotation.

(** ** More on sign-up *)

Section MoreSignUp.
Context {E : Collaborators}.

(** The two ways a sign-up ends: in an error, with the account table and
    the id counter as before, or in success, with one row appended under the
    next id and the login time set on the rows of that id. *)
Lemma signUp_cases (input : SignUpInput.t) (w : world) :
  let r := run (signUpWithPassword input) w in
  let n := SignUpInput.username input in
  ((exists e : error, fst r = inl e)
   /\ db (snd r) = db w /\ nextInsertId (snd r) = nextInsertId w)
  \/ (fst r = inr success
      /\ (exists reason, validateUsername (db w) n = inr (true, reason))
      /\ existsb (byUsername n) (db w) = false
      /\ exists h : string,
          argon2id_hash (entropy w) (SignUpInput.password input) = inr h
          /\ db (snd r)
             = update (SetLastLoginAt (clock w)) (Number (nextInsertId w))
                 (db w
                  ++ [mkAccount (nextInsertId w)
                        (typeIdGenerator (entropy w + 1) "account") n
                        (Some h) None None None])
          /\ nextInsertId (snd r) = nextInsertId w + 1
          /\ sessions (snd r)
             = (sessions w
                ++ [mkSession (nextSessionId w) (Number (nextInsertId w)) n
                      (typeIdGenerator (entropy w + 1) "account")])%list
          /\ cookies (snd r)
             = (cookies w ++ [createSessionCookie (nextSessionId w)])%list
          /\ console (snd r) = console w).
Proof.
  cbv zeta. unfold signUpWithPassword. cbn.
  destruct (validateUsername (db w) (SignUpInput.username input))
    as [e0 | [available reason]] eqn:Hv; cbn.
  - left. destruct txRollback as [er | []]; cbn; eauto.
  - destruct available; cbn.
    + destruct (argon2id_hash (entropy w) (SignUpInput.password input))
        as [e1 | h] eqn:Hh; cbn.
      * left. destruct txRollback as [er | []]; cbn; eauto.
      * destruct (existsb (byUsername (SignUpInput.username input)) (db w))
          eqn:Hex; cbn.
        -- left. destruct txRollback as [er | []]; cbn; eauto.
        -- right. split; [reflexivity |]. split; [eauto |].
           split; [reflexivity |]. exists h. repeat split; reflexivity.
    + left. destruct txRollback as [er | []]; cbn; eauto.
Qed.

(** X11: A sign-up succeeds exactly when the validator lets the username
    through, the password hashes, and the table holds no row of that
    username. *)
Theorem signUp_succeeds_iff (input : SignUpInput.t) (w : world) :
  fst (run (signUpWithPassword input) w) = inr success
  <-> (exists reason : jsstring,
          validateUsername (db w) (SignUpInput.username input)
          = inr (true, reason))
      /\ (exists h : string,
             argon2id_hash (entropy w) (SignUpInput.password input) = inr h)
      /\ existsb (byUsername (SignUpInput.username input)) (db w) = false.
Proof.
  split.
  - intros Hok.
    destruct (signUp_cases input w)
      as [[[e He] _] | [_ [Hv [Hex [h [Hh _]]]]]].
    + rewrite Hok in He. discriminate He.
    + split; [exact Hv |]. split; [exists h; exact Hh | exact Hex].
  - intros [[reason Hv] [[h Hh] Hex]].
    destruct (signUp_succeeds input w reason h Hv Hh Hex) as [w' [Hrun _]].
    rewrite Hrun. reflexivity.
Qed.

(** X12: What a successful sign-up writes, on a store whose ids are all
    below the next one and whose next id is below [2^53], so that
    [Number(newUser.insertId)] is the id itself: one row at the end of the
    table, under the next id, with the username, a fresh public id, the hash
    of the password, no second factor secret, no recovery code and the login
    time; one session for that id and its cookie; nothing on the console. *)
Theorem signUp_success_effects (input : SignUpInput.t) (w w' : world) :
  Z.abs (nextInsertId w) < 2 ^ 53 ->
  Forall (fun a => id a < nextInsertId w) (db w) ->
  run (signUpWithPassword input) w = (inr success, w') ->
  exists h : string,
    argon2id_hash (entropy w) (SignUpInput.password input) = inr h
    /\ db w' = (db w ++ [signedUp w (SignUpInput.username input) h])%list
    /\ nextInsertId w' = nextInsertId w + 1
    /\ sessions w'
       = (sessions w
          ++ [mkSession (nextSessionId w) (nextInsertId w)
                (SignUpInput.username input)
                (typeIdGenerator (entropy w + 1) "account")])%list
    /\ cookies w' = (cookies w ++ [createSessionCookie (nextSessionId w)])%list
    /\ console w' = console w.
Proof.
  intros Hsafe Hids Hrun.
  destruct (signUp_cases input w)
    as [[[e He] _] | [_ [_ [_ [h [Hh [Hdb [Hn [Hs [Hc Hl]]]]]]]]]];
    rewrite Hrun in *; cbn in *; [discriminate He |].
  rewrite (Number_exact _ Hsafe) in *.
  exists h. split; [exact Hh |]. split; [| auto].
  rewrite Hdb, update_app, (update_fresh _ _ _ Hids). cbn.
  unfold update, byId. cbn. rewrite Z.eqb_refl. reflexivity.
Qed.

(** Above [2^53] the id that sign-up carries on with is the rounded one: the
    session is issued for it, and the login time misses the new row when the
    rounding moved the id. *)
Lemma signUp_success_rounded_id (input : SignUpInput.t) (w w' : world) :
  Forall (fun a => id a < nextInsertId w) (db w) ->
  Number (nextInsertId w) < nextInsertId w ->
  run (signUpWithPassword input) w = (inr success, w') ->
  exists h : string,
    argon2id_hash (entropy w) (SignUpInput.password input) = inr h
    /\ db w'
       = (update (SetLastLoginAt (clock w)) (Number (nextInsertId w)) (db w)
          ++ [mkAccount (nextInsertId w)
                (typeIdGenerator (entropy w + 1) "account")
                (SignUpInput.username input) (Some h) None None None])%list
    /\ sessions w'
       = (sessions w
          ++ [mkSession (nextSessionId w) (Number (nextInsertId w))
                (SignUpInput.username input)
                (typeIdGenerator (entropy w + 1) "account")])%list.
Proof.
  intros Hids Hlt Hrun.
  destruct (signUp_cases input w)
    as [[[e He] _] | [_ [_ [_ [h [Hh [Hdb [Hn [Hs [Hc Hl]]]]]]]]]];
    rewrite Hrun in *; cbn in *; [discriminate He |].
  exists h. split; [exact Hh |]. split; [| exact Hs].
  rewrite Hdb, update_app. f_equal.
  unfold update, byId. cbn.
  destruct (Z.eqb_spec (nextInsertId w) (Number (nextInsertId w)));
    [lia | reflexivity].
Qed.

(** Sign-up keeps the store well formed, whatever its outcome and whatever
    the validator answers. *)
Lemma signUp_wellFormed (input : SignUpInput.t) (w : world) :
  wellFormed w ->
  wellFormed (snd (run (signUpWithPassword input) w)).
Proof.
  intros [Hu [Hi Hlt]]. unfold wellFormed.
  destruct (signUp_cases input w)
    as [[_ [Hdb Hn]] | [_ [_ [Hex [h [_ [Hdb [Hn _]]]]]]]];
    rewrite Hdb, Hn.
  - auto.
  - rewrite map_username_update, map_id_update, !map_app. cbn.
    split; [| split].
    + apply NoDup_snoc; [exact Hu |]. intros Hin.
      apply existsb_byUsername in Hin. rewrite Hin in Hex.
      discriminate Hex.
    + apply NoDup_snoc; [exact Hi |]. intros Hin.
      apply in_map_iff in Hin. destruct Hin as [a [Ha Hin]].
      rewrite Forall_forall in Hlt. specialize (Hlt a Hin). lia.
    + apply Forall_update; [intros a Ha; destruct a; exact Ha |].
      apply Forall_app. split.
      * apply (Forall_impl _ (P := fun a => id a < nextInsertId w));
          [intros a Ha; lia | exact Hlt].
      * constructor; [cbn; lia | constructor].
Qed.

(** X13: The store refuses a second account under a username, whatever the
    validator says: once a sign-up has succeeded, every later sign-up for
    the same username on the resulting table ends in an error and leaves the
    table as it is. *)
Theorem signUp_twice (input input2 : SignUpInput.t) (w w1 w2 : world) :
  run (signUpWithPassword input) w = (inr success, w1) ->
  SignUpInput.username input2 = SignUpInput.username input ->
  db w2 = db w1 ->
  (exists e : error, fst (run (signUpWithPassword input2) w2) = inl e)
  /\ db (snd (run (signUpWithPassword input2) w2)) = db w2.
Proof.
  intros Hrun Hname Hdb2.
  assert (Hin : existsb (byUsername (SignUpInput.username input2)) (db w2)
                = true).
  { destruct (signUp_cases input w)
      as [[[e He] _] | [_ [_ [_ [h [_ [Hdb _]]]]]]];
      rewrite Hrun in *; cbn in *; [discriminate He |].
    rewrite Hdb2, Hdb, Hname. apply existsb_byUsername.
    rewrite map_username_update, map_app. apply in_or_app. right.
    left. reflexivity. }
  destruct (signUp_cases input2 w2)
    as [[He [Hdb _]] | [_ [_ [Hex _]]]].
  - split; assumption.
  - rewrite Hin in Hex. discriminate Hex.
Qed.

(** X14: An account as sign-up leaves it cannot sign in through this router:
    it has no second factor secret and no recovery code, and sign-in wants
    two factors. After a successful sign-up, no sign-in for that username on
    the resulting table succeeds, with whatever password and codes; it ends
    in one of five errors ([PasswordSignInDisabled] only if the stored hash
    is the empty string). *)
Theorem signUp_then_signIn (input : SignUpInput.t) (w w1 w2 : world)
  (attempt : SignInInput.t) :
  run (signUpWithPassword input) w = (inr success, w1) ->
  SignInInput.username attempt = SignUpInput.username input ->
  db w2 = db w1 ->
  exists e : error,
    fst (run (signInWithPassword attempt) w2) = inl e
    /\ In e [InsufficientFactors; PasswordSignInDisabled;
             InvalidCredentials; OtpSignInDisabled; RecoverySignInDisabled].
Proof.
  intros Hrun Hname Hdb2.
  destruct (signUp_cases input w)
    as [[[e He] _] | [_ [_ [Hex [h [_ [Hdb _]]]]]]];
    rewrite Hrun in *; cbn in *; [discriminate He |].
  destruct (twoFactorsSupplied attempt) eqn:Hs.
  - assert (Hf : exists a, find (byUsername (SignInInput.username attempt))
                             (db w2) = Some a
                           /\ passwordHash a = Some h
                           /\ twoFactorSecret a = None
                           /\ recoveryCode a = None).
    { rewrite Hdb2, Hdb, Hname, find_byUsername_update.
      rewrite (find_byUsername_app_new (db w)
                 (mkAccount _ _ (SignUpInput.username input) _ _ _ _) Hex).
      cbn. destruct (byId _ _); eexists; repeat split; reflexivity. }
    destruct Hf as [a [Hf [Hph [Hts Hrc]]]].
    rewrite (run_signIn_found attempt w2 a Hs Hf).
    unfold verifyFactors, verifyPassword, verifyOtp, verifyRecoveryCode,
      decide.
    rewrite Hph, Hts, Hrc. change (truthy None) with false.
    split_factors attempt Hs; symex;
      eexists; (split; [reflexivity |]); cbn; tauto.
  - rewrite (signIn_guard attempt w2 Hs). eexists.
    split; [reflexivity |]. cbn. tauto.
Qed.

(** X17: If [tx.rollback()] raises, the [catch] block stops there: the error
    of the failing step is neither written to the console nor thrown again,
    the caller gets the error of the rollback instead; the store is
    untouched all the same. *)
Theorem signUp_when_rollback_raises (input : SignUpInput.t) (w w' : world)
  (e er : error) :
  txRollback = inl er ->
  run (signUpWithPassword input) w = (inl e, w') ->
  e = er /\ console w' = console w
  /\ db w' = db w /\ sessions w' = sessions w /\ cookies w' = cookies w.
Proof.
  intros Hr Hrun.
  destruct (signUp_rollback_raises input w w' e er Hr Hrun) as [He Hc].
  destruct (signUp_rolls_back input w w' e Hrun) as [Hdb [Hs Hk]].
  auto.
Qed.

End MoreSignUp.

(** ** The store stays well formed *)

Section Invariants.
Context {E : Collaborators}.

Lemma signIn_nextInsertId (input : SignInInput.t) (w : world) :
  nextInsertId (snd (run (signInWithPassword input) w)) = nextInsertId w.
Proof.
  destruct (twoFactorsSupplied input) eqn:Hs.
  - destruct (find (byUsername (SignInInput.username input)) (db w))
      as [u |] eqn:Hf.
    + rewrite (run_signIn_found input w u Hs Hf).
      unfold verifyFactors, verifyPassword, verifyOtp, verifyRecoveryCode,
        decide.
      split_factors input Hs; symex; reflexivity.
    + rewrite (signIn_not_found input w Hs Hf). reflexivity.
  - rewrite (signIn_guard input w Hs). reflexivity.
Qed.

Lemma updateUserPassword_nextInsertId (accountId : Z)
  (input : UpdatePasswordInput.t) (w : world) :
  nextInsertId (snd (run (updateUserPassword accountId input) w))
  = nextInsertId w.
Proof.
  unfold updateUserPassword. cbn.
  destruct (find (byId accountId) (db w)) as [u |]; cbn; [| reflexivity].
  symex; try reflexivity;
    destruct (argon2id_hash (entropy w)
                (UpdatePasswordInput.newPassword input)); reflexivity.
Qed.

(** Updates by id keep a table well formed. *)
Lemma wellFormed_update (s : AccountPatch) (i : Z) (w w' : world) :
  db w' = update s i (db w) ->
  nextInsertId w' = nextInsertId w ->
  wellFormed w -> wellFormed w'.
Proof.
  intros Hdb Hn [Hu [Hi Hlt]]. unfold wellFormed.
  rewrite Hdb, Hn, map_username_update, map_id_update.
  split; [exact Hu |]. split; [exact Hi |].
  apply Forall_update; [| exact Hlt].
  intros a Ha. destruct s; exact Ha.
Qed.

Lemma signIn_wellFormed (input : SignInInput.t) (w : world) :
  wellFormed w -> wellFormed (snd (run (signInWithPassword input) w)).
Proof.
  intros Hw. pose proof (signIn_nextInsertId input w) as Hn.
  destruct (signIn_db_cases input w) as [H | [u [d [_ [Hd H]]]]].
  - destruct Hw as [Hu [Hi Hlt]]. unfold wellFormed.
    rewrite H, Hn. auto.
  - apply (wellFormed_update (SetLastLoginAt (clock w)) (id u)
             (set_db d w)); [exact H | exact Hn |].
    destruct Hd as [-> | ->].
    + destruct Hw as [Hu [Hi Hlt]]. repeat split; assumption.
    + apply (wellFormed_update (SetRecoveryCode None) (id u) w);
        [reflexivity | reflexivity | exact Hw].
Qed.

Lemma updateUserPassword_wellFormed (accountId : Z)
  (input : UpdatePasswordInput.t) (w : world) :
  wellFormed w ->
  wellFormed (snd (run (updateUserPassword accountId input) w)).
Proof.
  intros Hw. pose proof (updateUserPassword_nextInsertId accountId input w)
    as Hn.
  destruct (updateUserPassword_db_cases accountId input w)
    as [H | [h [_ [_ H]]]].
  - destruct Hw as [Hu [Hi Hlt]]. unfold wellFormed.
    rewrite H, Hn. auto.
  - exact (wellFormed_update _ _ w _ H Hn Hw).
Qed.

(** X15: Every mutation of the router keeps the store well formed, whatever
    its outcome and whatever the collaborators answer: usernames and ids
    stay without repetition, and every id stays below the id counter. *)
Theorem router_keeps_wellFormed (w : world) :
  wellFormed w ->
  (forall input : SignUpInput.t,
      wellFormed (snd (run (signUpWithPassword input) w)))
  /\ (forall input : SignInInput.t,
         wellFormed (snd (run (signInWithPassword input) w)))
  /\ (forall (accountId : Z) (input : UpdatePasswordInput.t),
         wellFormed (snd (run (updateUserPassword accountId input) w))).
Proof.
  intros Hw. split; [| split].
  - intros input. exact (signUp_wellFormed input w Hw).
  - intros input. exact (signIn_wellFormed input w Hw).
  - intros accountId input.
    exact (updateUserPassword_wellFormed accountId input w Hw).
Qed.

End Invariants.

(** ** One recovery code, two sessions *)

Section OneCodeTwoSessions.
Context {E : Collaborators}.

(** The checks and the decision, when they end in success, create one
    session for the account they were given. *)
Lemma verifyFactors_success_session (input : SignInInput.t) (a : Account)
  (w w' : world) :
  run (verifyFactors input a) w = (inr success, w') ->
  sessions w'
  = (sessions w
     ++ [mkSession (nextSessionId w) (id a) (username a) (publicId a)])%list
  /\ nextSessionId w' = (nextSessionId w + 1)%N.
Proof.
  unfold verifyFactors, verifyPassword, verifyOtp, verifyRecoveryCode, decide.
  symex; intros H; inversion H; subst; cbn; split; reflexivity.
Qed.

(** X16: The recovery code does not stop a second request that is already
    past its lookup. When two sign-ins that present the same valid recovery
    code (and whose other supplied factors are valid) both look the account
    up before either clears the code, both succeed, and the one code yields
    two sessions for the account. *)
Theorem signIn_one_code_two_sessions (input : SignInInput.t) (u : Account)
  (w : world) :
  twoFactorsSupplied input = true ->
  truthy (SignInInput.recoveryCode input) = true ->
  (truthy (SignInInput.password input) = true -> passwordValid input u) ->
  (truthy (SignInInput.twoFactorCode input) = true ->
   otpValid input u (clock w)) ->
  recoveryCodeValid input u ->
  find (byUsername (SignInInput.username input)) (db w) = Some u ->
  let p := signInWithPassword input in
  let r := interleave [true; false] p p w in
  fst r = (inr success, inr success)
  /\ sessions (snd r)
     = (sessions w
        ++ [mkSession (nextSessionId w) (id u) (username u) (publicId u);
            mkSession (nextSessionId w + 1) (id u) (username u)
              (publicId u)])%list.
Proof.
  intros Hsup Hr Hpw Hotp Hrc Hf p r.
  pose proof (interleave_both_look_up_first input u w Hsup Hr Hpw Hotp Hrc Hf)
    as Hres.
  subst r p. revert Hres.
  rewrite (signIn_is_lookup input Hsup). cbn. rewrite Hf.
  destruct (run (verifyFactors input u) (log CQuery (log CQuery w)))
    as [r1 w1] eqn:H1.
  destruct (run (verifyFactors input u) w1) as [r2 w2] eqn:H2.
  cbn. intros Hres. injection Hres as -> ->.
  split; [reflexivity |].
  destruct (verifyFactors_success_session input u _ _ H1) as [Hs1 Hn1].
  destruct (verifyFactors_success_session input u _ _ H2) as [Hs2 Hn2].
  rewrite Hs2, Hs1, Hn1. cbn. rewrite <- app_assoc. reflexivity.
Qed.

End OneCodeTwoSessions.

(** ** The avatar stack *)

Section AvatarStack.
Import AvatarPlus.

(** X18: The main avatar is the primary participant whenever one is given,
    otherwise the first of [avatars]; nothing is rendered in its place
    exactly when there is neither. It is rendered at size [lg] whatever the
    [size] prop says. *)
Theorem avatar_main (p : PropsIn) :
  let v := render (withDefaults p) in
  (forall e, primaryIn p = Some e -> main v = Some (avatarElement e))
  /\ (forall e rest,
         primaryIn p = None -> avatarsIn p = e :: rest ->
         main v = Some (avatarElement e))
  /\ (main v = None <-> primaryIn p = None /\ avatarsIn p = [])
  /\ (forall a, main v = Some a -> sizeAttr a = lg).
Proof.
  destruct p as [pr av sz lm]. cbn. unfold primaryAvatar. cbn.
  split; [| split; [| split]].
  - intros e ->. reflexivity.
  - intros e rest -> ->. reflexivity.
  - destruct pr as [e |]; [| destruct av as [| e rest]]; cbn;
      split; try discriminate; try tauto.
    + intros [H _]. discriminate H.
    + intros [_ H]. discriminate H.
  - intros a. destruct pr as [e |]; [| destruct av as [| e rest]]; cbn;
      intros H; try discriminate H; injection H as <-; reflexivity.
Qed.

(** X19: For a [limit] that is a whole number of magnitude up to [2^52]
    (so that the arithmetic of the template is exact), the popover is there
    exactly when its number is at least one; the number is the length of
    [avatars] minus [limit] plus one, and its panel lists every element of
    [avatars], in order, however small [limit] is.  (A fractional [limit]
    is outside this statement: there the number shown can be below one.) *)
Theorem avatar_popover_whole_limit (props : Props) :
  Z.abs (limit props) <= 2 ^ 52 ->
  match popover (render props) with
  | Some q =>
      1 <= plus q
      /\ plus q = Z.of_nat (length (avatars props)) - limit props + 1
      /\ map fst (panel q) = map participantPublicId (avatars props)
      /\ map snd (panel q) = map avatarElement (avatars props)
  | None => Z.of_nat (length (avatars props)) - limit props + 1 <= 0
  end.
Proof.
  intros _. unfold render. cbn.
  destruct (Z.of_nat (length (avatars props)) + 1 >? limit props) eqn:H; cbn.
  - apply Z.gtb_gt in H. split; [lia |]. split; [reflexivity |].
    unfold avatarArray. rewrite !map_map. cbn. split; reflexivity.
  - rewrite Z.gtb_ltb in H. apply Z.ltb_ge in H. lia.
Qed.

(** With [limit] left out the popover is there as soon as [avatars] is not
    empty and its number is the length of [avatars]: every avatar counts,
    none is taken off for the one shown in front. *)
Lemma avatar_popover_default (p : PropsIn) :
  limitIn p = None ->
  match popover (render (withDefaults p)) with
  | Some q => avatarsIn p <> [] /\ plus q = Z.of_nat (length (avatarsIn p))
  | None => avatarsIn p = []
  end.
Proof.
  destruct p as [pr av sz lm]. cbn. intros ->. unfold render. cbn.
  destruct av as [| e rest].
  - reflexivity.
  - replace (Z.of_nat (length (e :: rest)) + 1 >? 1) with true.
    + cbn -[Z.of_nat]. split; [discriminate | lia].
    + symmetry. apply Z.gtb_gt. cbn [length]. lia.
Qed.

(** X20: Without a primary participant the first of [avatars] is shown
    twice: in front, and again as the first avatar of the panel, and it is
    counted in the number of the popover. *)
Theorem avatar_fallback_shown_twice (p : PropsIn)
  (e : ConvoParticipantEntry) (rest : list ConvoParticipantEntry) :
  primaryIn p = None ->
  limitIn p = None ->
  avatarsIn p = e :: rest ->
  let v := render (withDefaults p) in
  main v = Some (avatarElement e)
  /\ exists q : Popover,
      popover v = Some q
      /\ nth_error (panel q) 0 = Some (participantPublicId e, avatarElement e)
      /\ plus q = Z.of_nat (length rest) + 1.
Proof.
  destruct p as [pr av sz lm]. cbn. intros -> -> ->. unfold render.
  cbn -[Z.of_nat Z.gtb Z.add Z.sub length].
  split; [reflexivity |].
  replace (Z.of_nat (length (e :: rest)) + 1 >? 1) with true.
  - eexists. split; [reflexivity |]. cbn -[Z.of_nat].
    split; [reflexivity |]. cbn [length]. lia.
  - symmetry. apply Z.gtb_gt. cbn [length]. lia.
Qed.

End AvatarStack.

(** ** More of the theorems at work on the sample world *)

Section MoreInstances.
Import Scenario MoreScenario.
Local Existing Instance Fake.sound.

Lemma signIn_succeeds_iff_witness :
  fst (run (signInWithPassword allThree) Fake.world0) = inr success.
Proof.
  apply (proj2 (signIn_succeeds_iff (E := Fake.sound) allThree Fake.world0
                  Fake.alice eq_refl)).
  split; [reflexivity |].
  split; [intros _; split; reflexivity |].
  split; intros _; split; reflexivity.
Defined.

Lemma signIn_success_effects_witness :
  let w' := snd (run (signInWithPassword passwordAndCode) Fake.world0) in
  sessions w'
  = (sessions Fake.world0 ++ [mkSession 3 1 "alice" "account_0"])%list
  /\ find (byUsername "alice") (db w')
     = Some (mkAccount 1 "account_0" "alice"
               (Some "$argon2id$Str0ng!Passw0rd") (Some "00ff") None
               (Some 1700000000)).
Proof.
  cbv zeta.
  destruct (signIn_success_effects (E := Fake.sound) passwordAndCode
              Fake.world0
              (snd (@run Fake.sound _ (signInWithPassword passwordAndCode)
                      Fake.world0))
              Fake.alice eq_refl eq_refl)
    as [Hdb [Hs _]].
  split; [exact Hs |]. rewrite Hdb. reflexivity.
Defined.

Lemma signIn_unknown_username_witness :
  run (signInWithPassword mallory) Fake.world0
  = (inl AccountNotFound, log CQuery Fake.world0).
Proof.
  exact (signIn_unknown_username (E := Fake.sound) mallory Fake.world0
           eq_refl).
Defined.

Lemma signIn_frame_witness :
  map credentials
    (db (snd (run (signInWithPassword passwordAndCode) Fake.world0)))
  = map credentials (db Fake.world0)
  /\ nth_error
       (db (snd (run (signInWithPassword passwordAndCode) Fake.world0))) 2
     = Some Fake.carol.
Proof.
  destruct (signIn_frame (E := Fake.sound) passwordAndCode Fake.world0)
    as [H1 [H2 _]].
  split; [exact H1 |].
  apply (H2 Fake.alice 2%nat Fake.carol eq_refl eq_refl). discriminate.
Defined.

Lemma updateUserPassword_succeeds_iff_witness :
  fst (run (updateUserPassword 1 rotateAlice) Fake.world0) = inr success.
Proof.
  apply (proj2 (updateUserPassword_succeeds_iff (E := Fake.sound) 1
                  rotateAlice Fake.world0 Fake.alice eq_refl)).
  repeat (split; [reflexivity |]). eexists. reflexivity.
Defined.

Lemma updateUserPassword_success_effects_witness :
  let w' := snd (run (updateUserPassword 1 rotateAliceKeep) Fake.world0) in
  sessions w'
  = (sessions Fake.world0 ++ [mkSession 3 1 "alice" "account_0"])%list
  /\ db w'
     = update (SetPasswordHash "$argon2id$N3w!Passw0rd") 1 (db Fake.world0).
Proof.
  cbv zeta.
  destruct (updateUserPassword_success_effects (E := Fake.sound) 1
              rotateAliceKeep Fake.world0
              (snd (@run Fake.sound _ (updateUserPassword 1 rotateAliceKeep)
                      Fake.world0))
              Fake.alice eq_refl eq_refl)
    as [h [Hh [Hdb [Hs _]]]].
  injection Hh as <-. split; [exact Hs | exact Hdb].
Defined.

Lemma updateUserPassword_error_leaves_world_witness :
  db (snd (run (updateUserPassword 3 rotateCarol) Fake.world0))
  = db Fake.world0.
Proof.
  exact (proj1 (updateUserPassword_error_leaves_world (E := Fake.sound) 3
                  rotateCarol Fake.world0
                  (snd (@run Fake.sound _ (updateUserPassword 3 rotateCarol)
                          Fake.world0))
                  TwoFactorNotEnabled eq_refl)).
Defined.

Lemma updateUserPassword_old_password_gate_witness :
  run (updateUserPassword 1 rotateAliceWrongOld) Fake.world0
  = (inl IncorrectOldPassword, log CVerify (log CQuery Fake.world0))
  /\ run (updateUserPassword 2 rotateAlice) Fake.world0
     = (inl PasswordSignInDisabled, log CQuery Fake.world0)
  /\ run (updateUserPassword 9 rotateAlice) Fake.world0
     = (inl AccountNotFound, log CQuery Fake.world0).
Proof.
  split; [| split].
  - exact (proj2 (proj2 (updateUserPassword_old_password_gate
                           (E := Fake.sound) 1 rotateAliceWrongOld
                           Fake.world0))
             Fake.alice eq_refl eq_refl eq_refl).
  - exact (proj1 (proj2 (updateUserPassword_old_password_gate
                           (E := Fake.sound) 2 rotateAlice Fake.world0))
             Fake.bob eq_refl eq_refl).
  - exact (proj1 (updateUserPassword_old_password_gate
                    (E := Fake.sound) 9 rotateAlice Fake.world0)
             eq_refl).
Defined.

Lemma updateUserPassword_frame_witness :
  map exceptPassword
    (db (snd (run (updateUserPassword 1 rotateAlice) Fake.world0)))
  = map exceptPassword (db Fake.world0)
  /\ nth_error (db (snd (run (updateUserPassword 1 rotateAlice) Fake.world0)))
       1
     = Some Fake.bob.
Proof.
  destruct (updateUserPassword_frame (E := Fake.sound) 1 rotateAlice
              Fake.world0) as [H1 H2].
  split; [exact H1 |].
  apply (H2 1%nat Fake.bob eq_refl). discriminate.
Defined.

Lemma updateUserPassword_then_signIn_witness :
  let w1 := snd (run (updateUserPassword 1 rotateAlice) Fake.world0) in
  fst (run (signInWithPassword
              (passwordAndOtp "alice" "N3w!Passw0rd" "123456")) w1)
  = inr success
  /\ fst (run (signInWithPassword
                 (passwordAndOtp "alice" "Str0ng!Passw0rd" "123456")) w1)
     = inl InvalidCredentials.
Proof.
  cbv zeta.
  destruct (updateUserPassword_then_signIn (E := Fake.sound) 1 rotateAlice
              Fake.world0
              (snd (@run Fake.sound _ (updateUserPassword 1 rotateAlice)
                      Fake.world0))
              Fake.alice "$argon2id$N3w!Passw0rd"
              eq_refl eq_refl eq_refl eq_refl eq_refl eq_refl) as [H1 H2].
  split; [exact (H1 eq_refl eq_refl) | exact (H2 eq_refl eq_refl)].
Defined.

Lemma updateUserPassword_default_keeps_sessions_witness :
  sessions
    (snd (run (updateUserPassword 1
                 (UpdatePasswordRequest.withDefault rotateAliceBare))
            Fake.world0))
  = (sessions Fake.world0 ++ [mkSession 3 1 "alice" "account_0"])%list.
Proof.
  exact (proj1 (updateUserPassword_default_keeps_sessions (E := Fake.sound)
                  1 rotateAliceBare Fake.world0
                  (snd (@run Fake.sound _
                          (updateUserPassword 1
                             (UpdatePasswordRequest.withDefault
                                rotateAliceBare))
                          Fake.world0))
                  Fake.alice eq_refl eq_refl eq_refl)).
Defined.

Lemma signUp_success_effects_witness :
  db (snd (run (signUpWithPassword signUpDave) Fake.world0))
  = (db Fake.world0
     ++ [mkAccount 4 "account_8" "dave" (Some "$argon2id$Str0ng!Passw0rd")
           None None (Some 1700000000)])%list.
Proof.
  assert (Hrun : @run Fake.sound _ (signUpWithPassword signUpDave)
                   Fake.world0
                 = (inr success,
                    snd (@run Fake.sound _ (signUpWithPassword signUpDave)
                           Fake.world0))).
  { vm_compute. reflexivity. }
  assert (Hids : Forall (fun a => id a < nextInsertId Fake.world0)
                   (db Fake.world0)).
  { repeat constructor. }
  assert (Hsafe : Z.abs (nextInsertId Fake.world0) < 2 ^ 53).
  { reflexivity. }
  destruct (signUp_success_effects (E := Fake.sound) signUpDave Fake.world0
              _ Hsafe Hids Hrun) as [h [Hh [Hdb _]]].
  injection Hh as <-. exact Hdb.
Defined.

Lemma signUp_then_signIn_witness :
  exists e : error,
    fst (run (signInWithPassword daveSignsIn)
           (snd (@run Fake.sound _ (signUpWithPassword signUpDave)
                   Fake.world0)))
    = inl e
    /\ In e [InsufficientFactors; PasswordSignInDisabled;
             InvalidCredentials; OtpSignInDisabled; RecoverySignInDisabled].
Proof.
  assert (Hrun : @run Fake.sound _ (signUpWithPassword signUpDave)
                   Fake.world0
                 = (inr success,
                    snd (@run Fake.sound _ (signUpWithPassword signUpDave)
                           Fake.world0))).
  { vm_compute. reflexivity. }
  exact (signUp_then_signIn (E := Fake.sound) signUpDave Fake.world0 _ _
           daveSignsIn Hrun eq_refl eq_refl).
Defined.

Lemma sample_world_wellFormed : wellFormed Fake.world0.
Proof.
  unfold wellFormed. cbn. split; [| split].
  - repeat constructor; cbn; intuition discriminate.
  - repeat constructor; cbn; intuition discriminate.
  - repeat constructor.
Qed.

Lemma router_keeps_wellFormed_witness :
  wellFormed (snd (run (signUpWithPassword signUpDave) Fake.world0))
  /\ wellFormed (snd (run (signInWithPassword passwordAndCode) Fake.world0))
  /\ wellFormed (snd (run (updateUserPassword 1 rotateAlice) Fake.world0)).
Proof.
  destruct (router_keeps_wellFormed (E := Fake.sound) Fake.world0
              sample_world_wellFormed) as [H1 [H2 H3]].
  split; [exact (H1 signUpDave) |].
  split; [exact (H2 passwordAndCode) | exact (H3 1 rotateAlice)].
Defined.

Lemma signIn_one_code_two_sessions_witness :
  let p := signInWithPassword allThree in
  let r := interleave [true; false] p p Fake.world0 in
  fst r = (inr success, inr success)
  /\ sessions (snd r)
     = (sessions Fake.world0
        ++ [mkSession 3 1 "alice" "account_0";
            mkSession 4 1 "alice" "account_0"])%list.
Proof.
  exact (signIn_one_code_two_sessions (E := Fake.sound) allThree Fake.alice
           Fake.world0 eq_refl eq_refl
           (fun _ => conj eq_refl eq_refl)
           (fun _ => conj eq_refl eq_refl)
           (conj eq_refl eq_refl) eq_refl).
Defined.

End MoreInstances.

Section MoreFailingSignUps.
Import Scenario MoreScenario.

Lemma signUp_twice_witness :
  let w1 := snd (@run Fake.lenient _ (signUpWithPassword signUpDave)
                   Fake.world0) in
  fst (@run Fake.lenient _ (signUpWithPassword signUpDave) Fake.world0)
  = inr success
  /\ (exists e : error,
         fst (@run Fake.lenient _ (signUpWithPassword signUpDave) w1)
         = inl e)
  /\ db (snd (@run Fake.lenient _ (signUpWithPassword signUpDave) w1))
     = db w1.
Proof.
  cbv zeta.
  assert (Hrun : @run Fake.lenient _ (signUpWithPassword signUpDave)
                   Fake.world0
                 = (inr success,
                    snd (@run Fake.lenient _ (signUpWithPassword signUpDave)
                           Fake.world0))).
  { vm_compute. reflexivity. }
  split; [rewrite Hrun; reflexivity |].
  exact (signUp_twice (E := Fake.lenient) signUpDave signUpDave Fake.world0
           _ _ Hrun eq_refl eq_refl).
Defined.

Lemma signUp_when_rollback_raises_witness :
  let r := @run MoreFake.rollbackRaises _ (signUpWithPassword signUpAlice)
             Fake.world0 in
  fst r = inl (LibError "Rollback") /\ console (snd r) = []
  /\ db (snd r) = db Fake.world0.
Proof.
  cbv zeta.
  destruct (signUp_when_rollback_raises (E := MoreFake.rollbackRaises)
              signUpAlice Fake.world0
              (snd (@run MoreFake.rollbackRaises _
                      (signUpWithPassword signUpAlice) Fake.world0))
              (LibError "Rollback") (LibError "Rollback") eq_refl eq_refl)
    as [_ [Hc [Hdb _]]].
  split; [reflexivity |]. split; [exact Hc | exact Hdb].
Defined.

End MoreFailingSignUps.

Section AvatarInstances.
Import AvatarPlus MoreScenario.

Lemma avatar_fallback_shown_twice_witness :
  let v := render (withDefaults noPrimary) in
  main v = Some (avatarElement ann)
  /\ exists q : Popover,
      popover v = Some q
      /\ nth_error (panel q) 0 = Some ("cp_ann", avatarElement ann)
      /\ plus q = 2.
Proof.
  exact (avatar_fallback_shown_twice noPrimary ann [ben]
           eq_refl eq_refl eq_refl).
Defined.

End AvatarInstances.

(** ** Handlers whose calls may reject *)

Section RejectingCalls.
Context {E : Collaborators}.

(** When no call rejects, a run under an oracle is the run. *)
Lemma runF_noFaults {A : Type} (p : prog A) (w : world) :
  runF noFaults p w = run p w.
Proof.
  revert w.
  induction p as [A a | A e | A X op k IH | A X body IHb h IHh k IH
                 | A X body IHb k IH]; intros w; simpl.
  - reflexivity.
  - reflexivity.
  - unfold execF. simpl. destruct (exec op w) as [[e | x] w1];
      [reflexivity | apply IH].
  - rewrite IHb. destruct (run body w) as [[e | x] w1].
    + rewrite IHh. destruct (run (h e) w1) as [[e' | x] w2];
        [reflexivity | apply IH].
    + apply IH.
  - rewrite IHb. destruct (run body (tx_begin w)) as [[e | x] w1];
      [reflexivity | apply IH].
Qed.

(** Every supplied factor that comes back from its check came back valid,
    whichever calls reject. *)
Lemma verifyPassword_returns (f : faults) (input : SignInInput.t)
  (u : Account) (w w' : world) (v : bool) :
  runF f (verifyPassword input u) w = (inr v, w') ->
  v = truthy (SignInInput.password input).
Proof.
  unfold verifyPassword. symexF f; intros H; inversion H; reflexivity.
Qed.

Lemma verifyOtp_returns (f : faults) (input : SignInInput.t)
  (u : Account) (w w' : world) (v : bool) :
  runF f (verifyOtp input u) w = (inr v, w') ->
  v = truthy (SignInInput.twoFactorCode input).
Proof.
  unfold verifyOtp. symexF f; intros H; inversion H; reflexivity.
Qed.

Lemma verifyRecoveryCode_returns (f : faults) (input : SignInInput.t)
  (u : Account) (w w' : world) (v : bool) :
  runF f (verifyRecoveryCode input u) w = (inr v, w') ->
  v = truthy (SignInInput.recoveryCode input).
Proof.
  unfold verifyRecoveryCode. symexF f; intros H; inversion H; reflexivity.
Qed.

(** What a sign-in past the guard can end in. *)
Lemma signIn_outcomes (f : faults) (input : SignInInput.t) (w : world) :
  twoFactorsSupplied input = true ->
  let r := fst (runF f (signInWithPassword input) w) in
  r = inr success
  \/ r = inl AccountNotFound
  \/ (exists e : error, In e factorErrors /\ r = inl e)
  \/ (exists message : string, r = inl (LibError message)).
Proof.
  intros Hs. cbv zeta. unfold signInWithPassword. rewrite Hs.
  unfold verifyFactors, verifyPassword, verifyOtp, verifyRecoveryCode, decide.
  cbn. unfold execF.
  destruct (f _ (FindFirstByUsername (SignInInput.username input)) w)
    as [message |]; cbn; [right; right; right; eexists; reflexivity |].
  destruct (find (byUsername (SignInInput.username input)) (db w))
    as [u |]; cbn; [| right; left; reflexivity].
  split_factors input Hs; symexF f;
    solve [ left; reflexivity
          | right; right; left; eexists; split; [| reflexivity]; cbn; tauto
          | right; right; right; eexists; reflexivity ].
Qed.

(** What a sign-in past the guard ends in when every call answers. *)
Lemma signIn_answered_outcomes (input : SignInInput.t) (w : world) :
  twoFactorsSupplied input = true ->
  let r := fst (run (signInWithPassword input) w) in
  r = inr success
  \/ r = inl AccountNotFound
  \/ (exists e : error, In e factorErrors /\ r = inl e).
Proof.
  intros Hs. cbv zeta.
  destruct (find (byUsername (SignInInput.username input)) (db w))
    as [u |] eqn:Hf.
  - destruct (signIn_found_outcome input w u Hs Hf) as [H | H]; auto.
  - right. left. unfold signInWithPassword. rewrite Hs. cbn. rewrite Hf.
    reflexivity.
Qed.

(** C9 (as the code has it): for a request that passes the two-factor
    guard, the outcomes of the three checks, whenever all three checks
    return, satisfy the final condition, so the generic
    [AuthenticationFailed] is never the result, whichever calls reject.  A
    failing sign-in ends in [AccountNotFound] (the username is unknown), in
    one of the six factor errors, or in the exception of a call that
    rejected; when every call answers, in [AccountNotFound] or one of the
    six factor errors. *)
Theorem signIn_never_generic_failure (f : faults) (input : SignInInput.t)
  (w : world) :
  twoFactorsSupplied input = true ->
  (forall (u : Account) (w1 w1' w2 w2' w3 w3' : world) (vp ov rv : bool),
      runF f (verifyPassword input u) w1 = (inr vp, w1') ->
      runF f (verifyOtp input u) w2 = (inr ov, w2') ->
      runF f (verifyRecoveryCode input u) w3 = (inr rv, w3') ->
      (vp && ov) || (vp && rv) || (ov && rv) = true)
  /\ fst (runF f (signInWithPassword input) w) <> inl AuthenticationFailed
  /\ (fst (runF f (signInWithPassword input) w) = inr success
      \/ fst (runF f (signInWithPassword input) w) = inl AccountNotFound
      \/ (exists e : error,
             In e factorErrors
             /\ fst (runF f (signInWithPassword input) w) = inl e)
      \/ (exists message : string,
             fst (runF f (signInWithPassword input) w)
             = inl (LibError message)))
  /\ (fst (run (signInWithPassword input) w) = inr success
      \/ fst (run (signInWithPassword input) w) = inl AccountNotFound
      \/ (exists e : error,
             In e factorErrors
             /\ fst (run (signInWithPassword input) w) = inl e)).
Proof.
  intros Hs. split; [| split; [| split]].
  - intros u w1 w1' w2 w2' w3 w3' vp ov rv H1 H2 H3.
    apply verifyPassword_returns in H1.
    apply verifyOtp_returns in H2.
    apply verifyRecoveryCode_returns in H3.
    subst vp ov rv. unfold twoFactorsSupplied in Hs.
    destruct (truthy (SignInInput.password input));
      destruct (truthy (SignInInput.twoFactorCode input));
      destruct (truthy (SignInInput.recoveryCode input));
      solve [reflexivity | discriminate Hs].
  - destruct (signIn_outcomes f input w Hs)
      as [H | [H | [[e [Hin H]] | [message H]]]];
      rewrite H; try discriminate.
    cbn in Hin.
    repeat (destruct Hin as [<- | Hin]; [discriminate |]).
    contradiction.
  - exact (signIn_outcomes f input w Hs).
  - exact (signIn_answered_outcomes input w Hs).
Qed.


(** X7: A rotation that throws, whichever calls reject, either leaves the
    account table, the sessions and the cookies exactly as they were, or
    threw the exception of a call that rejected after the new hash had been
    stored.  So every error the handler throws itself, and a hashing
    failure, leave all three untouched. *)
Theorem updateUserPassword_error_cases (f : faults) (accountId : Z)
  (input : UpdatePasswordInput.t) (w w' : world) (e : error) :
  runF f (updateUserPassword accountId input) w = (inl e, w') ->
  (db w' = db w /\ sessions w' = sessions w /\ cookies w' = cookies w)
  \/ (exists (message h : string),
         e = LibError message
         /\ argon2id_hash (entropy w)
              (UpdatePasswordInput.newPassword input) = inr h
         /\ db w' = update (SetPasswordHash h) accountId (db w)).
Proof.
  unfold updateUserPassword. cbn. unfold execF.
  destruct (f _ (FindFirstById accountId) w) as [message |]; cbn.
  - intros H; inversion H; subst; cbn; auto.
  - destruct (find (byId accountId) (db w)) as [a |]; cbn.
    + symexF f;
        repeat match goal with
               | |- context [argon2id_hash ?n ?s] =>
                   destruct (argon2id_hash n s) eqn:?; symexF f
               end;
        intros H; inversion H; subst; clear H; cbn;
        first [ left; repeat split; reflexivity
              | right; do 2 eexists; repeat split; reflexivity ].
    + intros H; inversion H; subst; cbn; auto.
Qed.

End RejectingCalls.

(** ** Calls that reject, on the sample world *)

Section RejectingInstances.
Import Scenario MoreScenario.
Local Existing Instance Fake.sound.

(** Sign-up for a username that is taken, on the ORM whose rollback raises:
    the validator's verdict is lost. *)
Lemma signUp_failure_error_lost_witness :
  let r := @run MoreFake.rollbackRaises _ (signUpWithPassword signUpAlice)
             Fake.world0 in
  fst r = inl (LibError "Rollback")
  /\ fst r <> inl (UsernameUnavailable (Some "Already taken"))
  /\ console (snd r) = []
  /\ db (snd r) = db Fake.world0
  /\ sessions (snd r) = sessions Fake.world0.
Proof.
  cbv zeta.
  pose proof (signUp_failure_error_lost (E := MoreFake.rollbackRaises)
                signUpAlice Fake.world0
                (or_intror
                   (or_introl
                      (ex_intro _ (Some "Already taken"%string) eq_refl))))
    as H.
  cbv zeta in H. destruct H as [_ [Hdb [Hs [_ H]]]].
  destruct (H (LibError "Rollback") eq_refl) as [Hr Hc].
  split; [exact Hr |].
  split; [rewrite Hr; discriminate |].
  split; [exact Hc |]. split; [exact Hdb | exact Hs].
Defined.

(** Two factors for a username the table does not hold: the guard is
    passed, and the sign-in fails with [AccountNotFound], which is none of
    the factor errors. *)
Lemma signIn_account_not_found_counterexample :
  twoFactorsSupplied mallory = true
  /\ fst (run (signInWithPassword mallory) Fake.world0) = inl AccountNotFound
  /\ ~ In AccountNotFound factorErrors
  /\ ~ (exists e : error,
           In e factorErrors
           /\ fst (run (signInWithPassword mallory) Fake.world0) = inl e).
Proof.
  assert (Hnot : ~ In AccountNotFound factorErrors).
  { cbn. intros H.
    repeat (destruct H as [H | H]; [discriminate H |]). exact H. }
  split; [reflexivity |]. split; [reflexivity |]. split; [exact Hnot |].
  intros [e [Hin He]]. cbn in He. injection He as <-. exact (Hnot Hin).
Qed.

Lemma signIn_never_generic_failure_witness :
  fst (runF Outage.verifier (signInWithPassword threeFactorsOneWrong)
         Fake.world0)
  <> inl AuthenticationFailed
  /\ fst (run (signInWithPassword mallory) Fake.world0)
     <> inl AuthenticationFailed.
Proof.
  split.
  - exact (proj1 (proj2 (signIn_never_generic_failure (E := Fake.sound)
                           Outage.verifier threeFactorsOneWrong Fake.world0
                           eq_refl))).
  - discriminate.
Defined.

(** A password that is checked by a verifier that raises. *)
Example signIn_verifier_raises :
  runF Outage.verifier (signInWithPassword threeFactorsOneWrong) Fake.world0
  = (inl (LibError "malformed hash"), log CVerify (log CQuery Fake.world0)).
Proof. reflexivity. Qed.



(** A rotation while the session issuer is down: it throws with the new
    hash stored and the old sessions dropped. *)
Example updateUserPassword_session_outage :
  let r := runF Outage.sessionStore (updateUserPassword 1 rotateAlice)
             Fake.world0 in
  fst r = inl (LibError "session store unavailable")
  /\ option_map passwordHash (find (byId 1) (db (snd r)))
     = Some (Some "$argon2id$N3w!Passw0rd")
  /\ sessions (snd r) = [mkSession 1 3 "carol" "account_2"].
Proof.
  cbv zeta. split; [reflexivity |]. split; reflexivity.
Qed.

Lemma updateUserPassword_error_cases_witness :
  let w' := snd (runF Outage.sessionStore (updateUserPassword 1 rotateAlice)
                   Fake.world0) in
  (db w' = db Fake.world0
   /\ sessions w' = sessions Fake.world0
   /\ cookies w' = cookies Fake.world0)
  \/ (exists (message h : string),
         LibError "session store unavailable" = LibError message
         /\ argon2id_hash (entropy Fake.world0) "N3w!Passw0rd" = inr h
         /\ db w' = update (SetPasswordHash h) 1 (db Fake.world0)).
Proof.
  cbv zeta.
  assert (Hrun : @runF Fake.sound Outage.sessionStore _
                   (updateUserPassword 1 rotateAlice) Fake.world0
                 = (inl (LibError "session store unavailable"),
                    snd (@runF Fake.sound Outage.sessionStore _
                           (updateUserPassword 1 rotateAlice)
                           Fake.world0))).
  { vm_compute. reflexivity. }
  exact (updateUserPassword_error_cases (E := Fake.sound)
           Outage.sessionStore 1 rotateAlice Fake.world0 _ _ Hrun).
Defined.

(** An id above [2^53]: the session is issued for the rounded id, and the
    new row gets no login time. *)
Example signUp_id_rounded :
  let w := set_nextInsertId (2 ^ 53 + 1) Fake.world0 in
  let r := run (signUpWithPassword signUpDave) w in
  fst r = inr success
  /\ map userId (sessions (snd r)) = [1; 3; 1; 2 ^ 53]
  /\ option_map (fun a => (id a, lastLoginAt a))
       (find (byUsername "dave") (db (snd r)))
     = Some (2 ^ 53 + 1, None).
Proof.
  cbv zeta. vm_compute. split; [reflexivity |]. split; reflexivity.
Qed.

End RejectingInstances.

Section MoreAvatarInstances.
Import AvatarPlus MoreScenario.

Lemma avatar_popover_whole_limit_witness :
  exists q : Popover,
    popover (render (withDefaults noPrimary)) = Some q
    /\ 1 <= plus q
    /\ map fst (panel q) = ["cp_ann"; "cp_ben"]%string.
Proof.
  assert (H : Z.abs (limit (withDefaults noPrimary)) <= 2 ^ 52).
  { cbn. lia. }
  pose proof (avatar_popover_whole_limit (withDefaults noPrimary) H) as P.
  cbn in P. destruct P as [P1 [_ [P3 _]]].
  eexists. split; [reflexivity |]. split; [exact P1 | exact P3].
Defined.

End MoreAvatarInstances.
